(** * Discovery listeners of the Assimilation CMA

    A shallow embedding of [cma/checksumdiscovery.py] and
    [cma/linkdiscovery.py], and the properties of the two listeners:
    the checksum probe and diff, the link-up filter and batch request,
    and the handling of link-discovery packets.

    Python dictionaries that arrive as JSON are association lists read the
    way the code reads them ([keys], then [d[k]]); dictionaries the code
    builds itself ([changes], [attrs], [params]) are finite maps. *)

From Stdlib Require Import ZArith String Ascii List.
From Stdlib Require Import Floats.PrimFloat.
From stdpp Require Import base option list strings gmap pretty.

Local Open Scope string_scope.
Local Open Scope list_scope.

(** ** Python strings *)

Module PyStr.

(** [s.endswith(suffix)] *)
Fixpoint endswith (s suffix : string) : bool :=
  if String.eqb s suffix then true
  else match s with
       | EmptyString => false
       | String _ rest => endswith rest suffix
       end.

(** [s.split(sep)] for a one-character separator: never empty, and an
    empty segment for every separator at an end or next to another. *)
Fixpoint split (sep : ascii) (s : string) : list string :=
  match s with
  | EmptyString => [EmptyString]
  | String c rest =>
      if Ascii.eqb c sep then EmptyString :: split sep rest
      else match split sep rest with
           | [] => [String c EmptyString]
           | seg :: segs => String c seg :: segs
           end
  end.

(** [needle in s] *)
Fixpoint contains (s needle : string) : bool :=
  if String.prefix needle s then true
  else match s with
       | EmptyString => false
       | String _ rest => contains rest needle
       end.

End PyStr.

(** ** Python dictionaries read from JSON *)

Definition dict (V : Type) : Type := list (string * V).

Module Dict.
Section Ops.
Context {V : Type}.

(** [d.keys()] *)
Definition keys (d : dict V) : list string := map fst d.

(** [d.get(k)], and [d[k]] where [None] stands for the missing key *)
Fixpoint get (d : dict V) (k : string) : option V :=
  match d with
  | [] => None
  | (k', v) :: rest => if String.eqb k' k then Some v else get rest k
  end.

(** [k in d] *)
Definition mem (k : string) (d : dict V) : bool :=
  match get d k with Some _ => true | None => false end.

(** the pairs a loop [for k in d.keys(): v = d[k]] visits *)
Definition items (d : dict V) : list (string * option V) :=
  map (fun k => (k, get d k)) (keys d).
End Ops.
End Dict.

(** ** The checksum listener: [cma/checksumdiscovery.py] *)

Module ChecksumDiscovery.

(** One entry of a [tcpdiscovery] packet: the fields the listener reads. *)
Record ProcInfo := {
  exe : option string;
  cmdline : option (list string)
}.

(** [checksumparameters] *)
Record ChecksumParameters := {
  ptype : string;
  ASSIM_sumcmds : list string;
  ASSIM_filelist : list string
}.

(** A packet: [jsonobj['discovertype']] and [jsonobj['data']]. *)
Record JsonObj (D : Type) := {
  discovertype : string;
  data : D
}.
Arguments discovertype {D} _.
Arguments data {D} _.

(** The drone as far as this listener touches it; [JSON_OLD_checksums] is
    [None] while [hasattr(drone, 'JSON_OLD_checksums')] is false. *)
Record Drone := {
  designation : string;
  JSON_OLD_checksums : option string
}.

Abbreviation Changes := (gmap string (string * string)).

Inductive PrintLine :=
| RequestingChecksumMonitoring (filelist : list string)
| ProcessingChecksumData
| ComparingChecksumData
| UpdatingChecksumData.

(** What a call does to the outside, in the order it does it. *)
Inductive Effect :=
| EPrint (line : PrintLine)
| ELogWarning (system file oldsum newsum : string)
| ERequestDiscovery (name : string) (interval : Z) (params : string)
| EObjUpdate (system : string) (changetype : string) (changes : Changes).

Definition sumcmds : list string :=
  [ "/usr/bin/sha256sum"; "/usr/bin/sha224sum"; "/usr/bin/sha384sum";
    "/usr/bin/sha512sum"; "/usr/bin/sha1sum"; "/usr/bin/md5sum";
    "/usr/bin/cksum"; "/usr/bin/crc32" ].

Definition base_filelist : list string :=
  [ "/bin/sh"; "/bin/bash"; "/bin/login"; "/usr/bin/passwd"; "/tmp/foobar" ].

(** [for j in range(0, len(cmdline))]: the loop over the positions, as a
    recursion over the suffix that starts at [j]. The test
    [j < len(cmdline)-1] is that a token follows; [break] ends the loop. *)
Fixpoint classpath_jars (cmdline : list string) : list string :=
  match cmdline with
  | [] => []
  | tok :: rest =>
      match rest with
      | next :: _ =>
          if String.eqb tok "-cp" then PyStr.split ":" next
          else classpath_jars rest
      | [] => classpath_jars rest
      end
  end.

(** The body of [for procname in data.keys()] for one process: what it
    appends to [ASSIM_filelist]. *)
Definition proc_files (procinfo : ProcInfo) : list string :=
  match exe procinfo with
  | None => []
  | Some exename =>
      exename ::
        (if PyStr.endswith exename "/java" then
           match cmdline procinfo with
           | None => []
           | Some cl => classpath_jars cl
           end
         else [])
  end.

Definition build_filelist (d : dict ProcInfo) : list string :=
  fold_left
    (fun filelist '(_, procinfo) =>
       match procinfo with
       | Some pi => filelist ++ proc_files pi
       | None => filelist
       end)
    (Dict.items d) base_filelist.

Definition build_checksumparameters (d : dict ProcInfo) : ChecksumParameters :=
  {| ptype := "checksums";
     ASSIM_sumcmds := sumcmds;
     ASSIM_filelist := build_filelist d |}.

(** One step of [for oldfile in oldobj.keys()] in [compare_checksums]. *)
Definition compare_step (system : string) (oldobj newobj : dict string)
    (acc : Changes * list Effect) (oldfile : string) : Changes * list Effect :=
  match Dict.get newobj oldfile with
  | None => acc
  | Some newchecksum =>
      match Dict.get oldobj oldfile with
      | None => acc
      | Some oldchecksum =>
          if String.eqb oldchecksum newchecksum then acc
          else (<[oldfile := (oldchecksum, newchecksum)]> (fst acc),
                snd acc ++ [ELogWarning system oldfile oldchecksum newchecksum])
      end
  end.

Definition compare_loop (system : string) (oldobj newobj : dict string)
    : Changes * list Effect :=
  fold_left (compare_step system oldobj newobj) (Dict.keys oldobj) (∅, []).

Section Listener.
(** [str(JSONtree(checksumparameters))], [str(jsonobj)] and
    [pyConfigContext(text)] belong to the JSON layer. *)
Variable JSONtree_str : ChecksumParameters -> string.
Variable jsonobj_str : JsonObj (dict string) -> string.
Variable pyConfigContext : string -> JsonObj (dict string).

Definition processtcpdiscoverypkt (drone : Drone)
    (jsonobj : JsonObj (dict ProcInfo)) : list Effect :=
  let checksumparameters := build_checksumparameters (data jsonobj) in
  [ ERequestDiscovery "_auto-checksums" 30 (JSONtree_str checksumparameters);
    EPrint (RequestingChecksumMonitoring (ASSIM_filelist checksumparameters)) ].

Definition compare_checksums (drone : Drone) (oldobj newobj : dict string)
    : list Effect :=
  let '(changes, warnings) := compare_loop (designation drone) oldobj newobj in
  warnings ++ [EObjUpdate (designation drone) "checksums" changes].

Definition processchecksumpkt (drone : Drone)
    (jsonobj : JsonObj (dict string)) : Drone * list Effect :=
  let compared :=
    match JSON_OLD_checksums drone with
    | Some old =>
        EPrint ComparingChecksumData ::
          compare_checksums drone (data (pyConfigContext old)) (data jsonobj)
    | None => []
    end in
  ({| designation := designation drone;
      JSON_OLD_checksums := Some (jsonobj_str jsonobj) |},
   [EPrint ProcessingChecksumData] ++ compared ++ [EPrint UpdatingChecksumData]).
End Listener.

End ChecksumDiscovery.

(** ** The link listener: [cma/linkdiscovery.py] *)

Module LinkDiscovery.

(** A value found in a packet. A [pyNetAddr] is known by its [str()]. *)
#[warnings="-register-all"]
Inductive Value :=
| VNone
| VBool (b : bool)
| VInt (z : Z)
| VFloat (f : float)
| VStr (s : string)
| VAddr (text : string)
| VList (l : list Value)
| VDict (d : list (string * Value)).

(** A packet: [jsonobj['discovertype']] and [jsonobj['data']]. *)
Record JsonObj := {
  discovertype : string;
  data : dict Value
}.

Inductive Exc :=
| KeyError (key : string)
| AssertionError
| AttributeError
| TypeError.

Inductive Outcome (A : Type) :=
| Returns (a : A)
| Raises (e : Exc).
Arguments Returns {A} _.
Arguments Raises {A} _.

Inductive NodeClass := SystemNode | NICNode | IPaddrNode.

(** [value == text] for a [str] on the right *)
Definition eq_str (v : Value) (text : string) : bool :=
  match v with
  | VStr s => String.eqb s text
  | _ => false
  end.

(** [isinstance(value, int) or isinstance(value, float)]; [bool] is a
    subclass of [int]. *)
Definition is_number (v : Value) : bool :=
  match v with
  | VBool _ | VInt _ | VFloat _ => true
  | _ => false
  end.

(** Truth value of [if value:] *)
Definition truthy (v : Value) : bool :=
  match v with
  | VNone => false
  | VBool b => b
  | VInt z => negb (Z.eqb z 0)
  | VFloat f => negb (PrimFloat.eqb f PrimFloat.zero)
  | VStr s => negb (String.eqb s "")
  | VAddr _ => true
  | VList l => match l with [] => false | _ => true end
  | VDict d => match d with [] => false | _ => true end
  end.

(** [key in container]: a key of a dictionary, a substring of a string, an
    element of a list; anything else is not iterable. *)
Definition contains (key : string) (container : Value) : Outcome bool :=
  match container with
  | VDict d => Returns (Dict.mem key d)
  | VStr s => Returns (PyStr.contains s key)
  | VList l => Returns (existsb (fun x => eq_str x key) l)
  | _ => Raises TypeError
  end.

(** [container[key]] for a [str] key *)
Definition getitem (container : Value) (key : string) : Outcome Value :=
  match container with
  | VDict d =>
      match Dict.get d key with
      | Some v => Returns v
      | None => Raises (KeyError key)
      end
  | _ => Raises TypeError
  end.

(** [container.keys()], with the dictionary it was called on *)
Definition as_dict (container : Value) : Outcome (dict Value) :=
  match container with
  | VDict d => Returns d
  | _ => Raises AttributeError
  end.

Inductive LogLevel := Info | Warning | Error.

(** What the constants, classes and services the listener imports provide. *)
Class Externals := {
  (** [str()] of a float, a list or a dictionary *)
  render : Value -> string;
  (** [AssimCtypes] and [CMAconsts] *)
  ADDR_FAMILY_IPV4 : Z;
  ADDR_FAMILY_IPV6 : Z;
  ADDR_FAMILY_802 : Z;
  CONFIGNAME_INSTANCE : string;
  CONFIGNAME_DEVNAME : string;
  CONFIGNAME_SWPROTOS : string;
  ROLE_bridge : string;
  REL_nicowner : string;
  REL_ipowner : string;
  REL_wiredto : string;
  (** [pyNetAddr] *)
  NetAddr : Type;
  pyNetAddr : Value -> NetAddr;
  addrtype : NetAddr -> Z;
  netaddr_eqb : NetAddr -> NetAddr -> bool;
  netaddr_str : NetAddr -> string;
  (** [ConfigFile.agent_params] *)
  Config : Type;
  agent_params : Config -> string -> string -> string -> gmap string Value;
  (** the graph store and its nodes *)
  Store : Type;
  Node : Type;
  load_or_create : Store -> NodeClass -> gmap string Value -> Store * Node;
  relate : Store -> Node -> string -> Node -> gmap string Value -> Store;
  relate_new : Store -> Node -> string -> Node -> Store;
  load_related : Store -> Node -> string -> list Node;
  addrole : Store -> Node -> string -> Store;
  node_domain : Node -> Value;
  node_ifname : Node -> string
}.

Section Listener.
Context `{Ext : Externals}.

(** [str(value)] *)
Definition py_str (v : Value) : string :=
  match v with
  | VNone => "None"
  | VBool true => "True"
  | VBool false => "False"
  | VInt z => pretty z
  | VStr s => s
  | VAddr text => text
  | VFloat _ | VList _ | VDict _ => render v
  end.

(** [discovery_indicates_link_is_up] on a dictionary *)
Definition link_is_up (devinfo : dict Value) : bool :=
  match Dict.get devinfo "operstate", Dict.get devinfo "carrier",
        Dict.get devinfo "address" with
  | Some operstate, Some carrier, Some address =>
      String.eqb (py_str operstate) "up"
      && String.eqb (py_str carrier) "True"
      && negb (String.eqb (py_str address) "00-00-00-00-00-00")
      && negb (String.eqb (py_str address) "")
  | _, _, _ => false
  end.

(** [discovery_indicates_link_is_up]: the [in] tests run left to right
    and stop at the first that fails; when all three hold of a string or
    a list, the subscript that follows is a type error. *)
Definition discovery_indicates_link_is_up (devinfo : Value) : Outcome bool :=
  match devinfo with
  | VDict d => Returns (link_is_up d)
  | _ =>
      match contains "operstate" devinfo with
      | Raises e => Raises e
      | Returns false => Returns false
      | Returns true =>
          match contains "carrier" devinfo with
          | Raises e => Raises e
          | Returns false => Returns false
          | Returns true =>
              match contains "address" devinfo with
              | Raises e => Raises e
              | Returns false => Returns false
              | Returns true => Raises TypeError
              end
          end
      end
  end.

Record Drone := {
  designation : string;
  domain : string;
  node : Node
}.

Inductive LogMsg :=
| ChassisIdMissing (d : dict Value)
| LLDPAttrs (attrs : gmap string Value)
| ChassisIdNotMac (chassisid mgmtaddr : Value)
| ChassisIdNotMgmtAddr (mgmtnetaddr chassisaddr : string)
| OopsException.

(** What a call does to the outside, in the order it does it. *)
Inductive Effect :=
| ELog (level : LogLevel) (msg : LogMsg)
| EPrintBadPacketType (t : string)
| ERequestDiscovery (args : list (gmap string Value))
| ELoadOrCreate (cls : NodeClass) (attrs : gmap string Value)
| ERelate (a : Node) (rel : string) (b : Node) (props : gmap string Value)
| ERelateNew (a : Node) (rel : string) (b : Node)
| ELoadRelated (n : Node) (rel : string)
| EAddRole (n : Node) (role : string).

Record World := {
  store : Store;
  trace : list Effect
}.

(** A computation runs in a world, changes it, and returns or raises. *)
Definition M (A : Type) : Type := World -> Outcome A * World.

Definition ret {A} (a : A) : M A := fun w => (Returns a, w).
Definition raise {A} (e : Exc) : M A := fun w => (Raises e, w).
Definition bind {A B} (m : M A) (k : A -> M B) : M B :=
  fun w =>
    match m w with
    | (Returns a, w') => k a w'
    | (Raises e, w') => (Raises e, w')
    end.
Definition lift {A} (o : Outcome A) : M A := fun w => (o, w).
Definition emit (e : Effect) : M unit :=
  fun w => (Returns tt, {| store := store w; trace := trace w ++ [e] |}).

(** [try: body except KeyError: handler] *)
Definition try_except_KeyError (body handler : M unit) : M unit :=
  fun w =>
    match body w with
    | (Raises (KeyError _), w') => handler w'
    | r => r
    end.

Notation "'let*' x ':=' m 'in' k" := (bind m (fun x => k))
  (at level 10, x pattern, m at level 100, k at level 200).

(** [for x in xs: body] *)
Fixpoint for_each {A} (xs : list A) (body : A -> M unit) : M unit :=
  match xs with
  | [] => ret tt
  | x :: rest => let* _ := body x in for_each rest body
  end.

(** The calls on [self.store], on a node and on the drone. *)
Definition do_load_or_create (cls : NodeClass) (attrs : gmap string Value)
    : M Node :=
  fun w =>
    let '(s, n) := load_or_create (store w) cls attrs in
    (Returns n, {| store := s; trace := trace w ++ [ELoadOrCreate cls attrs] |}).

Definition do_relate (a : Node) (rel : string) (b : Node)
    (props : gmap string Value) : M unit :=
  fun w =>
    (Returns tt, {| store := relate (store w) a rel b props;
                    trace := trace w ++ [ERelate a rel b props] |}).

Definition do_relate_new (a : Node) (rel : string) (b : Node) : M unit :=
  fun w =>
    (Returns tt, {| store := relate_new (store w) a rel b;
                    trace := trace w ++ [ERelateNew a rel b] |}).

Definition do_load_related (n : Node) (rel : string) : M (list Node) :=
  fun w =>
    (Returns (load_related (store w) n rel),
     {| store := store w; trace := trace w ++ [ELoadRelated n rel] |}).

Definition do_addrole (n : Node) (role : string) : M unit :=
  fun w =>
    (Returns tt, {| store := addrole (store w) n role;
                    trace := trace w ++ [EAddRole n role] |}).

(** *** [processpkt_netconfig] *)

Record Listener := {
  config : Config
}.

(** [params], from the copy of [init_params] to the three assignments *)
Definition switch_params (init_params : gmap string Value) (devname : string)
    : gmap string Value :=
  <[CONFIGNAME_SWPROTOS := VList [VStr "lldp"; VStr "cdp"]]>
    (<[CONFIGNAME_DEVNAME := VStr devname]>
       (<[CONFIGNAME_INSTANCE := VStr (String.append "#SWITCH_" devname)]> init_params)).

(** [for devname in data.keys()], with [discovery_args] as it grows *)
Fixpoint netconfig_loop (init_params : gmap string Value) (d : dict Value)
    (devnames : list string) (discovery_args : list (gmap string Value))
    : Outcome (list (gmap string Value)) :=
  match devnames with
  | [] => Returns discovery_args
  | devname :: rest =>
      match Dict.get d devname with
      | None => Raises (KeyError devname)
      | Some devinfo =>
          match discovery_indicates_link_is_up devinfo with
          | Raises e => Raises e
          | Returns true =>
              netconfig_loop init_params d rest
                (discovery_args ++ [switch_params init_params devname])
          | Returns false => netconfig_loop init_params d rest discovery_args
          end
      end
  end.

Definition processpkt_netconfig (self : Listener) (drone : Drone)
    (jsonobj : JsonObj) : M unit :=
  let init_params :=
    agent_params (config self) "discovery" "#SWITCH" (designation drone) in
  let* discovery_args :=
    lift (netconfig_loop init_params (data jsonobj)
            (Dict.keys (data jsonobj)) []) in
  match discovery_args with
  | [] => ret tt
  | _ :: _ => emit (ERequestDiscovery discovery_args)
  end.

(** *** [_process_mgmt_addr] *)

Definition _process_mgmt_addr (switch : Node) (chassisid : Value)
    (attrs : gmap string Value) : M unit :=
  match attrs !! "ManagementAddress" with
  | None => raise (KeyError "ManagementAddress")
  | Some mgmtaddr =>
      let mgmtnetaddr := pyNetAddr mgmtaddr in
      let atype := addrtype mgmtnetaddr in
      if Z.eqb atype ADDR_FAMILY_IPV4 || Z.eqb atype ADDR_FAMILY_IPV6 then
        let chassisaddr := pyNetAddr chassisid in
        let chassistype := addrtype chassisaddr in
        if Z.eqb chassistype ADDR_FAMILY_802 then
          let* adminnic :=
            do_load_or_create NICNode
              (<["domain" := node_domain switch]>
                 (<["macaddr" := chassisid]>
                    (<["scope" := VStr "global"]>
                       {["ifname" := VStr "(adminNIC)"]}))) in
          let* mgmtip :=
            do_load_or_create IPaddrNode
              (<["domain" := node_domain switch]>
                 (<["cidrmask" := VStr "unknown"]>
                    (<["ipaddr" := mgmtaddr]> {["subnet" := VNone]}))) in
          let* _ := do_relate_new switch REL_nicowner adminnic in
          do_relate_new adminnic REL_ipowner mgmtip
        else
          let* _ := emit (ELog Info (LLDPAttrs attrs)) in
          if negb (netaddr_eqb mgmtnetaddr chassisaddr) then
            let* _ := emit (ELog Warning (ChassisIdNotMac chassisid mgmtaddr)) in
            emit (ELog Warning (ChassisIdNotMgmtAddr (netaddr_str mgmtnetaddr)
                                  (netaddr_str chassisaddr)))
          else ret tt
      else if Z.eqb atype ADDR_FAMILY_802 then
        let* mgmtnic :=
          do_load_or_create NICNode
            (<["domain" := node_domain switch]>
               (<["macaddr" := mgmtaddr]>
                  (<["scope" := VStr "global"]>
                     {["ifname" := VStr "(ManagementAddress)"]}))) in
        do_relate_new switch REL_nicowner mgmtnic
      else ret tt
  end.

(** *** [_process_ports] *)

(** [attrs] of one port: [for key in thisport.keys()] *)
Definition port_attrs (thisport : dict Value) : gmap string Value :=
  fold_left
    (fun attrs key =>
       match Dict.get thisport key with
       | Some (VAddr text) => <[key := VStr text]> attrs
       | Some value => <[key := value]> attrs
       | None => attrs
       end)
    (Dict.keys thisport) ∅.

(** [for dronenic in niclist], up to the [break] *)
Fixpoint wire_loop (nicnode : Node) (matchif : Value) (niclist : list Node)
    : M unit :=
  match niclist with
  | [] => ret tt
  | dronenic :: rest =>
      if eq_str matchif (node_ifname dronenic)
      then do_relate_new nicnode REL_wiredto dronenic
      else wire_loop nicnode matchif rest
  end.

(** The body of the [try] *)
Definition wire_port (drone : Drone) (nicnode : Node) (thisport : dict Value)
    : M unit :=
  let* host := lift (getitem (VDict thisport) "ConnectsToHost") in
  if eq_str host (designation drone) then
    let* matchif := lift (getitem (VDict thisport) "ConnectsToInterface") in
    let* niclist := do_load_related (node drone) REL_nicowner in
    wire_loop nicnode matchif niclist
  else raise AssertionError.

(** The keyword arguments written out in the call of [load_or_create];
    one of them again in [**attrs] is a type error. *)
Definition nic_keywords : list string :=
  ["domain"; "macaddr"; "scope"; "json"; "ifname"].

(** The body of [for portname in ports.keys()] *)
Definition process_port (drone : Drone) (switch : Node) (chassisid : Value)
    (ports : dict Value) (portname : string) : M unit :=
  let* entry := lift (getitem (VDict ports) portname) in
  let* thisport := lift (as_dict entry) in
  let attrs := port_attrs thisport in
  let nicmac :=
    match Dict.get thisport "sourceMAC" with
    | Some mac => mac
    | None => chassisid
    end in
  let* portid := lift (getitem (VDict thisport) "PortId") in
  if existsb (fun k => Dict.mem k thisport) nic_keywords then raise TypeError
  else
    let* nicnode :=
      do_load_or_create NICNode
        (<["domain" := VStr (domain drone)]>
           (<["macaddr" := nicmac]>
              (<["scope" := VStr "global"]>
                 (<["json" := VStr (py_str (VDict thisport))]>
                    (<["ifname" := portid]> attrs))))) in
    let* _ :=
      do_relate switch REL_nicowner nicnode {["causes" := VBool true]} in
    try_except_KeyError (wire_port drone nicnode thisport)
      (emit (ELog Error OopsException)).

Definition _process_ports (drone : Drone) (switch : Node) (chassisid : Value)
    (ports : Value) : M unit :=
  let* portsd := lift (as_dict ports) in
  for_each (Dict.keys portsd) (process_port drone switch chassisid portsd).

(** *** [processpkt_linkdiscovery] *)

(** [attrs] of the switch: [for key in data.keys()] and the two
    assignments after it *)
Definition switch_attrs (drone : Drone) (d : dict Value) (chassisid : Value)
    : gmap string Value :=
  <["domain" := VStr (domain drone)]>
    (<["designation" := chassisid]>
       (fold_left
          (fun attrs key =>
             if String.eqb key "ports" || String.eqb key "SystemCapabilities"
             then attrs
             else match Dict.get d key with
                  | Some value =>
                      <[key := if is_number value then value
                               else VStr (py_str value)]> attrs
                  | None => attrs
                  end)
          (Dict.keys d) ∅)).

Definition assign_roles (switch : Node) (d : dict Value) : M unit :=
  match Dict.get d "SystemCapabilities" with
  | None => do_addrole switch ROLE_bridge
  | Some caps =>
      let* capsd := lift (as_dict caps) in
      for_each (Dict.keys capsd)
        (fun role =>
           match Dict.get capsd role with
           | Some flag => if truthy flag then do_addrole switch role else ret tt
           | None => raise (KeyError role)
           end)
  end.

Definition processpkt_linkdiscovery (self : Listener) (drone : Drone)
    (jsonobj : JsonObj) : M unit :=
  let d := data jsonobj in
  match Dict.get d "ChassisId" with
  | None => emit (ELog Warning (ChassisIdMissing d))
  | Some chassisid =>
      let attrs := switch_attrs drone d chassisid in
      let* switch := do_load_or_create SystemNode attrs in
      let* _ := assign_roles switch d in
      let* _ :=
        match attrs !! "ManagementAddress" with
        | Some _ => _process_mgmt_addr switch chassisid attrs
        | None => ret tt
        end in
      let* ports := lift (getitem (VDict d) "ports") in
      _process_ports drone switch chassisid ports
  end.

(** *** [processpkt] *)

Definition processpkt (self : Listener) (drone : Drone) (jsonobj : JsonObj)
    (discoverychanged : bool) : M unit :=
  if negb discoverychanged then ret tt
  else if String.eqb (discovertype jsonobj) "__LinkDiscovery" then
    processpkt_linkdiscovery self drone jsonobj
  else if String.eqb (discovertype jsonobj) "netconfig" then
    processpkt_netconfig self drone jsonobj
  else emit (EPrintBadPacketType (discovertype jsonobj)).

(** Effects that change the graph. *)
Definition is_graph_mutation (e : Effect) : bool :=
  match e with
  | ELoadOrCreate _ _ | ERelate _ _ _ _ | ERelateNew _ _ _ | EAddRole _ _ => true
  | _ => false
  end.

Definition is_load_or_create (e : Effect) : bool :=
  match e with ELoadOrCreate _ _ => true | _ => false end.
End Listener.

End LinkDiscovery.

(** ** What the properties are stated with *)

Module ChecksumSpec.
Import ChecksumDiscovery.

(** The change of one file between two snapshots, if it has one. *)
Definition checksum_change (oldobj newobj : dict string) (file : string)
    : option (string * string) :=
  match Dict.get oldobj file, Dict.get newobj file with
  | Some oldsum, Some newsum =>
      if String.eqb oldsum newsum then None else Some (oldsum, newsum)
  | _, _ => None
  end.

Definition is_objupdate (e : Effect) : bool :=
  match e with EObjUpdate _ _ _ => true | _ => false end.

(** What the processes of a packet add to the file list, in the order of
    [data.keys()]. *)
Definition appended_files (d : dict ProcInfo) : list string :=
  flat_map
    (fun procname =>
       match Dict.get d procname with
       | Some procinfo => proc_files procinfo
       | None => []
       end)
    (Dict.keys d).

(** A JSON layer to run the listener with: [file=sum;file=sum]. *)
Definition example_str (jsonobj : JsonObj (dict string)) : string :=
  String.concat ";" (map (fun entry => String.append (fst entry) (String.append "=" (snd entry)))
       (data jsonobj)).

Definition example_parse (text : string) : JsonObj (dict string) :=
  {| discovertype := "checksum";
     data := flat_map
               (fun item =>
                  match PyStr.split "=" item with
                  | [file; sum] => [(file, sum)]
                  | _ => []
                  end)
               (PyStr.split ";" text) |}.

Definition java_process : ProcInfo :=
  {| exe := Some "/usr/bin/java";
     cmdline := Some ["java"; "-cp"; "/a.jar:/b.jar"; "Main"] |}.

Definition java_process_two_cp : ProcInfo :=
  {| exe := Some "/usr/bin/java";
     cmdline := Some ["java"; "-cp"; "/a.jar"; "-cp"; "/b.jar"] |}.

End ChecksumSpec.

Module LinkSpec.
Import LinkDiscovery.

Section Spec.
Context `{Ext : Externals}.

(** The link-up criteria of a device entry, as a proposition. *)
Definition link_up_criteria (devinfo : dict Value) : Prop :=
  exists operstate carrier address,
    Dict.get devinfo "operstate" = Some operstate /\
    Dict.get devinfo "carrier" = Some carrier /\
    Dict.get devinfo "address" = Some address /\
    py_str operstate = "up" /\
    py_str carrier = "True" /\
    py_str address <> "00-00-00-00-00-00" /\
    py_str address <> "".

Definition is_error_log (e : Effect) : bool :=
  match e with ELog Error _ => true | _ => false end.

Definition is_dict (v : Value) : Prop :=
  match v with VDict _ => True | _ => False end.

(** The device entries of a [netconfig] packet are dictionaries. *)
Definition netconfig_entries (d : dict Value) : Prop :=
  Forall (fun entry => is_dict (snd entry)) d.

Definition entry_is_up (v : Value) : bool :=
  match v with VDict devinfo => link_is_up devinfo | _ => false end.

(** The devices of a packet that satisfy the criteria, in the order of
    [data.keys()]. *)
Definition devices_up (d : dict Value) : list string :=
  List.filter
    (fun devname =>
       match Dict.get d devname with
       | Some v => entry_is_up v
       | None => false
       end)
    (Dict.keys d).

(** A port whose cross-reference names another host: [PortId] is there,
    no field has the name of a keyword argument, and [ConnectsToHost] is
    there and is not the designation of the drone. *)
Definition names_other_host (drone : Drone) (thisport : dict Value) : Prop :=
  (exists portid, Dict.get thisport "PortId" = Some portid) /\
  existsb (fun k => Dict.mem k thisport) nic_keywords = false /\
  exists host, Dict.get thisport "ConnectsToHost" = Some host /\
               eq_str host (designation drone) = false.

(** A port with no [ConnectsToHost] or, when that matches, no
    [ConnectsToInterface]. *)
Definition lacks_cross_reference (drone : Drone) (thisport : dict Value) : Prop :=
  (exists portid, Dict.get thisport "PortId" = Some portid) /\
  existsb (fun k => Dict.mem k thisport) nic_keywords = false /\
  (Dict.get thisport "ConnectsToHost" = None \/
   (exists host, Dict.get thisport "ConnectsToHost" = Some host /\
                 eq_str host (designation drone) = true) /\
   Dict.get thisport "ConnectsToInterface" = None).

(** The arguments of [load_or_create] for the NIC of a port. *)
Definition nic_attrs (drone : Drone) (chassisid : Value) (thisport : dict Value)
    : gmap string Value :=
  <["domain" := VStr (domain drone)]>
    (<["macaddr" := match Dict.get thisport "sourceMAC" with
                    | Some mac => mac
                    | None => chassisid
                    end]>
       (<["scope" := VStr "global"]>
          (<["json" := VStr (py_str (VDict thisport))]>
             (<["ifname" := match Dict.get thisport "PortId" with
                            | Some portid => portid
                            | None => VNone
                            end]> (port_attrs thisport))))).
End Spec.

(** An environment to run the listener with: a node is known by its name,
    the store is the list of its edges. *)
Definition example_name (cls : NodeClass) (attrs : gmap string Value) : string :=
  let field :=
    match cls with
    | SystemNode => "designation"
    | NICNode => "ifname"
    | IPaddrNode => "ipaddr"
    end in
  match attrs !! field with
  | Some (VStr s) => s
  | _ => "?"
  end.

Definition example_edge_eqb (e1 e2 : string * string * string) : bool :=
  String.eqb (fst (fst e1)) (fst (fst e2))
  && String.eqb (snd (fst e1)) (snd (fst e2))
  && String.eqb (snd e1) (snd e2).

Definition example_addrtype (text : string) : Z :=
  if PyStr.contains text "-" then 6
  else if PyStr.contains text "." then 1
  else if PyStr.contains text ":" then 2
  else 0.

Definition ExampleExternals : Externals :=
  {| render := fun _ => "{...}";
     ADDR_FAMILY_IPV4 := 1;
     ADDR_FAMILY_IPV6 := 2;
     ADDR_FAMILY_802 := 6;
     CONFIGNAME_INSTANCE := "instance";
     CONFIGNAME_DEVNAME := "devname";
     CONFIGNAME_SWPROTOS := "switchprotos";
     ROLE_bridge := "bridge";
     REL_nicowner := "nicowner";
     REL_ipowner := "ipowner";
     REL_wiredto := "wiredto";
     NetAddr := string;
     pyNetAddr := fun v => match v with VStr s => s | _ => "" end;
     addrtype := example_addrtype;
     netaddr_eqb := String.eqb;
     netaddr_str := fun a => a;
     Config := unit;
     agent_params := fun _ _ _ _ => ∅;
     Store := list (string * string * string);
     Node := string;
     load_or_create := fun s cls attrs => (s, example_name cls attrs);
     relate := fun s a rel b _ =>
       if existsb (example_edge_eqb (a, rel, b)) s then s else s ++ [(a, rel, b)];
     relate_new := fun s a rel b =>
       if existsb (example_edge_eqb (a, rel, b)) s then s else s ++ [(a, rel, b)];
     load_related := fun s n rel =>
       map snd (List.filter (fun e => String.eqb (fst (fst e)) n
                                      && String.eqb (snd (fst e)) rel) s);
     addrole := fun s _ _ => s;
     node_domain := fun _ => VStr "global";
     node_ifname := fun n => n |}.

Definition example_listener : @Listener ExampleExternals :=
  @Build_Listener ExampleExternals tt.

Definition example_drone : @Drone ExampleExternals :=
  @Build_Drone ExampleExternals "host1" "global" "host1".

Definition example_world : @World ExampleExternals :=
  @Build_World ExampleExternals [("host1", "nicowner", "eth0")] [].

Definition eth0_up : Value :=
  VDict [("operstate", VStr "up"); ("carrier", VStr "True");
         ("address", VStr "AA:BB:CC:DD:EE:FF")].

Definition eth1_down : Value :=
  VDict [("operstate", VStr "down"); ("carrier", VStr "True");
         ("address", VStr "AA:BB:CC:DD:EE:00")].

Definition eth2_up : Value :=
  VDict [("operstate", VStr "up"); ("carrier", VBool true);
         ("address", VStr "AA:BB:CC:DD:EE:02")].

Definition example_netconfig : JsonObj :=
  {| discovertype := "netconfig";
     data := [("eth0", eth0_up); ("eth1", eth1_down); ("eth2", eth2_up)] |}.

Definition port_other_host : dict Value :=
  [("PortId", VStr "Gi0/1"); ("ConnectsToHost", VStr "host2");
   ("ConnectsToInterface", VStr "eth0")].

Definition port_this_host : dict Value :=
  [("PortId", VStr "Gi0/2"); ("ConnectsToHost", VStr "host1");
   ("ConnectsToInterface", VStr "eth0")].

Definition port_no_host : dict Value :=
  [("PortId", VStr "Gi0/3")].

Definition example_ports : dict Value :=
  [("p1", VDict port_other_host); ("p2", VDict port_this_host)].

Definition example_linkdiscovery : JsonObj :=
  {| discovertype := "__LinkDiscovery";
     data := [("ChassisId", VStr "00-11-22-33-44-55");
              ("ports", VDict example_ports)] |}.

Definition example_no_chassis : JsonObj :=
  {| discovertype := "__LinkDiscovery";
     data := [("SystemName", VStr "sw1"); ("ports", VDict example_ports)] |}.

End LinkSpec.

(** ** What the further properties are stated with *)

Module ChecksumAux.
Import ChecksumDiscovery.

(** A change read the other way round. *)
Definition swap_change (change : string * string) : string * string :=
  (snd change, fst change).

Definition is_warning (e : Effect) : bool :=
  match e with ELogWarning _ _ _ _ => true | _ => false end.

(** The text stored for a packet gives its data back when it is read. *)
Definition reads_back (jsonobj_str : JsonObj (dict string) -> string)
    (pyConfigContext : string -> JsonObj (dict string))
    (jsonobj : JsonObj (dict string)) : Prop :=
  data (pyConfigContext (jsonobj_str jsonobj)) = data jsonobj.

(** [sep.join(segments)] *)
Definition join (sep : ascii) (segments : list string) : string :=
  String.concat (String sep EmptyString) segments.

(** How often a character occurs in a string. *)
Fixpoint occurrences (c : ascii) (s : string) : nat :=
  match s with
  | EmptyString => 0
  | String c' rest => (if Ascii.eqb c' c then 1 else 0) + occurrences c rest
  end.

End ChecksumAux.

Module LinkAux.
Import LinkDiscovery LinkSpec.

(** A port field as [_process_ports] keeps it: an address as its text. *)
Definition port_attr_value (value : Value) : Value :=
  match value with
  | VAddr text => VStr text
  | _ => value
  end.

(** The capabilities that count: those with a true flag, in the order of
    [caps.keys()]. *)
Definition roles_of (caps : dict Value) : list string :=
  List.filter
    (fun role =>
       match Dict.get caps role with
       | Some flag => truthy flag
       | None => false
       end)
    (Dict.keys caps).

(** Values that are neither a dictionary, a string nor a list. *)
Definition not_iterable (v : Value) : Prop :=
  match v with
  | VNone | VBool _ | VInt _ | VFloat _ | VAddr _ => True
  | VStr _ | VList _ | VDict _ => False
  end.

Section Aux.
Context `{Ext : Externals}.

(** A field of the packet as [processpkt_linkdiscovery] keeps it: a number
    as it is, anything else as its [str()]. *)
Definition attr_value (value : Value) : Value :=
  if is_number value then value else VStr (py_str value).

Definition is_relate_new (e : Effect) : bool :=
  match e with ERelateNew _ _ _ => true | _ => false end.

(** A port that [_process_ports] can take: [PortId] is there, no field has
    the name of a keyword argument, and [ConnectsToHost], when there, is
    the designation of the drone. *)
Definition port_accepted (drone : Drone) (thisport : dict Value) : Prop :=
  (exists portid, Dict.get thisport "PortId" = Some portid) /\
  existsb (fun k => Dict.mem k thisport) nic_keywords = false /\
  (Dict.get thisport "ConnectsToHost" = None \/
   exists host, Dict.get thisport "ConnectsToHost" = Some host /\
                eq_str host (designation drone) = true).

(** The port under a name, when it is a dictionary. *)
Definition port_of (ports : dict Value) (portname : string) : dict Value :=
  match Dict.get ports portname with
  | Some (VDict thisport) => thisport
  | _ => []
  end.

(** The first NIC of the drone with the interface name of the port. *)
Definition matching_nic (matchif : Value) (niclist : list Node) : option Node :=
  List.find (fun dronenic => eq_str matchif (node_ifname dronenic)) niclist.
End Aux.

Definition port_with_domain : dict Value :=
  [("PortId", VStr "Gi0/4"); ("domain", VStr "lab")].

Definition example_switch_only : JsonObj :=
  {| discovertype := "__LinkDiscovery";
     data := [("ChassisId", VStr "00-11-22-33-44-55");
              ("SystemName", VStr "sw1"); ("mtu", VInt 1500)] |}.

Definition example_caps : dict Value :=
  [("bridge", VBool true); ("router", VBool false); ("wlan", VInt 1)].

Definition example_netconfig_broken : JsonObj :=
  {| discovertype := "netconfig";
     data := [("eth0", eth0_up); ("eth9", VNone)] |}.

End LinkAux.

(** ** Dictionaries: keys and lookups *)

Section DictFacts.
Context {V : Type}.
Implicit Types (d : dict V) (k : string).

Lemma dict_get_cons d k k' (v : V) :
  Dict.get ((k', v) :: d) k = if String.eqb k' k then Some v else Dict.get d k.
Proof. reflexivity. Qed.

Lemma dict_get_None_keys d k : Dict.get d k = None <-> k ∉ Dict.keys d.
Proof.
  induction d as [|[k' v] d IH]; simpl.
  - split; [intros _; apply not_elem_of_nil | reflexivity].
  - destruct (String.eqb_spec k' k) as [->|Hne].
    + split; [discriminate | intros H; exfalso; apply H; left].
    + rewrite IH, not_elem_of_cons. split; [intros H; split; congruence | tauto].
Qed.

Lemma dict_get_Some_keys d k v : Dict.get d k = Some v -> k ∈ Dict.keys d.
Proof.
  intros H. destruct (decide (k ∈ Dict.keys d)) as [|Hn]; [assumption|].
  apply dict_get_None_keys in Hn. congruence.
Qed.

Lemma dict_keys_get d k : k ∈ Dict.keys d -> exists v, Dict.get d k = Some v.
Proof.
  intros H. destruct (Dict.get d k) as [v|] eqn:E; [eauto|].
  apply dict_get_None_keys in E. contradiction.
Qed.

Lemma dict_get_In d k v : Dict.get d k = Some v -> (k, v) ∈ d.
Proof.
  induction d as [|[k' v'] d IH]; simpl; [discriminate|].
  destruct (String.eqb_spec k' k) as [->|Hne].
  - intros [= ->]. left.
  - intros H. right. auto.
Qed.

Lemma dict_get_nodup d k v :
  NoDup (Dict.keys d) -> (k, v) ∈ d -> Dict.get d k = Some v.
Proof.
  induction d as [|[k' v'] d IH]; intros Hnd Hin.
  - apply elem_of_nil in Hin. contradiction.
  - cbn in Hnd. apply NoDup_cons in Hnd as [Hk' Hnd].
    rewrite dict_get_cons. apply elem_of_cons in Hin as [[= -> ->]|Hin].
    + rewrite String.eqb_refl. reflexivity.
    + destruct (String.eqb_spec k' k) as [->|_]; [|auto].
      exfalso. apply Hk'. change (k ∈ map fst d).
      apply list_elem_of_fmap. exists (k, v). split; [reflexivity|assumption].
Qed.

(** Filtering the keys by what is found under them is filtering the
    entries, when every entry is found under its key. *)
Lemma dict_filter_keys (g : option V -> bool) d0 d :
  (forall k v, (k, v) ∈ d -> Dict.get d0 k = Some v) ->
  List.filter (fun k => g (Dict.get d0 k)) (Dict.keys d) =
    Dict.keys (List.filter (fun entry => g (Some (snd entry))) d).
Proof.
  induction d as [|[k v] d IH]; intros Hall; [reflexivity|].
  cbn [Dict.keys map List.filter fst snd].
  rewrite (Hall k v) by left.
  fold (Dict.keys d). rewrite IH by (intros; apply Hall; right; assumption).
  destruct (g (Some v)); reflexivity.
Qed.
End DictFacts.

(** ** The checksum listener *)

Module ChecksumFacts.
Import ChecksumDiscovery ChecksumSpec.

(** One step of the comparison, by the change of the file it looks at. *)
Lemma compare_step_changes system oldobj newobj acc file :
  fst (compare_step system oldobj newobj acc file) =
    match checksum_change oldobj newobj file with
    | Some change => <[file := change]> (fst acc)
    | None => fst acc
    end.
Proof.
  unfold compare_step, checksum_change.
  destruct (Dict.get newobj file), (Dict.get oldobj file); try reflexivity.
  destruct (String.eqb _ _); reflexivity.
Qed.

Lemma compare_fold_lookup system oldobj newobj files acc file :
  fst (fold_left (compare_step system oldobj newobj) files acc) !! file =
    if decide (file ∈ files) then
      match checksum_change oldobj newobj file with
      | Some change => Some change
      | None => fst acc !! file
      end
    else fst acc !! file.
Proof.
  revert acc. induction files as [|f files IH]; intros acc; cbn [fold_left].
  - destruct (decide (file ∈ [])) as [Hin|_]; [|reflexivity].
    apply elem_of_nil in Hin. contradiction.
  - rewrite IH, compare_step_changes.
    destruct (decide (file ∈ files)) as [Hin|Hnin].
    + rewrite decide_True by (right; assumption).
      destruct (checksum_change oldobj newobj file) eqn:Hc; [reflexivity|].
      destruct (decide (f = file)) as [->|Hne].
      * rewrite Hc. reflexivity.
      * destruct (checksum_change oldobj newobj f); [|reflexivity].
        apply lookup_insert_ne. assumption.
    + destruct (decide (f = file)) as [->|Hne].
      * rewrite decide_True by left.
        destruct (checksum_change oldobj newobj file); [|reflexivity].
        apply lookup_insert_eq.
      * rewrite decide_False by (rewrite not_elem_of_cons; split; congruence).
        destruct (checksum_change oldobj newobj f); [|reflexivity].
        apply lookup_insert_ne. assumption.
Qed.

(** The changes map holds, for every file, its change between the two
    snapshots. *)
Lemma compare_loop_lookup system oldobj newobj file :
  fst (compare_loop system oldobj newobj) !! file =
    checksum_change oldobj newobj file.
Proof.
  unfold compare_loop. rewrite compare_fold_lookup. cbn [fst].
  rewrite lookup_empty.
  destruct (decide (file ∈ Dict.keys oldobj)) as [Hin|Hnin].
  - destruct (checksum_change oldobj newobj file); reflexivity.
  - apply dict_get_None_keys in Hnin. unfold checksum_change.
    rewrite Hnin. reflexivity.
Qed.

Lemma checksum_change_Some oldobj newobj file oldsum newsum :
  checksum_change oldobj newobj file = Some (oldsum, newsum) <->
  Dict.get oldobj file = Some oldsum /\ Dict.get newobj file = Some newsum /\
  oldsum <> newsum.
Proof.
  unfold checksum_change.
  destruct (Dict.get oldobj file) as [o|], (Dict.get newobj file) as [n|];
    try (split; [discriminate | intros (? & ? & ?); discriminate]).
  destruct (String.eqb_spec o n) as [->|Hne].
  - split; [discriminate | intros ([= ->] & [= ->] & ?); contradiction].
  - split.
    + intros [= -> ->]. auto.
    + intros ([= ->] & [= ->] & _). reflexivity.
Qed.

(** The warnings of the loop are warnings: no event among them. *)
Lemma compare_fold_no_event system oldobj newobj files acc :
  List.filter is_objupdate (snd acc) = [] ->
  List.filter is_objupdate
    (snd (fold_left (compare_step system oldobj newobj) files acc)) = [].
Proof.
  revert acc. induction files as [|f files IH]; intros acc Hacc; simpl.
  - assumption.
  - apply IH. unfold compare_step.
    destruct (Dict.get newobj f); [|assumption].
    destruct (Dict.get oldobj f); [|assumption].
    destruct (String.eqb _ _); [assumption|].
    simpl. rewrite List.filter_app, Hacc. reflexivity.
Qed.

Lemma compare_checksums_events drone oldobj newobj :
  List.filter is_objupdate (compare_checksums drone oldobj newobj) =
    [EObjUpdate (designation drone) "checksums"
       (fst (compare_loop (designation drone) oldobj newobj))].
Proof.
  unfold compare_checksums.
  pose proof (compare_fold_no_event (designation drone) oldobj newobj
                (Dict.keys oldobj) (∅, []) eq_refl) as Hw.
  fold (compare_loop (designation drone) oldobj newobj) in Hw.
  destruct (compare_loop (designation drone) oldobj newobj) as [changes warnings].
  simpl in *. rewrite List.filter_app, Hw. reflexivity.
Qed.

(** C1, as the code has it: the changes map that [compare_checksums]
    puts in its event holds exactly the files that are in both snapshots
    with different checksums, each with the pair (old checksum, new
    checksum); a file that is only in the old snapshot or only in the new
    one is not recorded. For old [{a: "x", b: "y"}] and new
    [{a: "x", b: "z", c: "w"}] the map is [{b: ("y", "z")}]: the old
    checksum of [b] is ["y"]. *)
Theorem compare_checksums_changes drone oldobj newobj :
  (exists warnings changes,
     compare_checksums drone oldobj newobj =
       warnings ++ [EObjUpdate (designation drone) "checksums" changes] /\
     List.filter is_objupdate warnings = [] /\
     (forall file oldsum newsum,
        changes !! file = Some (oldsum, newsum) <->
        Dict.get oldobj file = Some oldsum /\
        Dict.get newobj file = Some newsum /\
        oldsum <> newsum) /\
     (forall file, Dict.get newobj file = None -> changes !! file = None) /\
     (forall file, Dict.get oldobj file = None -> changes !! file = None)) /\
  List.filter is_objupdate
    (compare_checksums drone [("a", "x"); ("b", "y")]
       [("a", "x"); ("b", "z"); ("c", "w")]) =
    [EObjUpdate (designation drone) "checksums" {[ "b" := ("y", "z") ]}].
Proof.
  split.
  - pose proof (compare_loop_lookup (designation drone) oldobj newobj) as Hlookup.
    pose proof (compare_fold_no_event (designation drone) oldobj newobj
                  (Dict.keys oldobj) (∅, []) eq_refl) as Hwarn.
    fold (compare_loop (designation drone) oldobj newobj) in Hwarn.
    unfold compare_checksums.
    destruct (compare_loop (designation drone) oldobj newobj)
      as [changes warnings].
    cbn [fst snd] in Hlookup, Hwarn.
    exists warnings, changes. split; [reflexivity|]. split; [exact Hwarn|].
    split; [|split].
    + intros file oldsum newsum. rewrite Hlookup. apply checksum_change_Some.
    + intros file Hnew. rewrite Hlookup. unfold checksum_change.
      rewrite Hnew. destruct (Dict.get oldobj file); reflexivity.
    + intros file Hold. rewrite Hlookup. unfold checksum_change.
      rewrite Hold. reflexivity.
  - rewrite compare_checksums_events.
    assert (Hmap : fst (compare_loop (designation drone) [("a", "x"); ("b", "y")]
                          [("a", "x"); ("b", "z"); ("c", "w")]) =
                   {[ "b" := ("y", "z") ]}); [|rewrite Hmap; reflexivity].
    apply map_eq. intros file. rewrite compare_loop_lookup.
    destruct (decide (file = "b")) as [->|Hne].
    + rewrite lookup_singleton_eq. reflexivity.
    + rewrite lookup_singleton_ne by congruence.
      unfold checksum_change. rewrite !dict_get_cons.
      destruct (String.eqb_spec "a" file) as [<-|Ha]; [reflexivity|].
      destruct (String.eqb_spec "b" file) as [<-|Hb]; [congruence|reflexivity].
Qed.

Lemma compare_checksums_changes_witness :
  exists changes,
    List.filter is_objupdate
      (compare_checksums {| designation := "host1"; JSON_OLD_checksums := None |}
         [("a", "x"); ("b", "y")] [("a", "x"); ("b", "z"); ("c", "w")]) =
      [EObjUpdate "host1" "checksums" changes] /\
    changes !! "b" = Some ("y", "z") /\
    changes !! "a" = None /\
    changes !! "c" = None.
Proof.
  destruct (compare_checksums_changes
              {| designation := "host1"; JSON_OLD_checksums := None |}
              [("a", "x"); ("b", "y")] [("a", "x"); ("b", "z"); ("c", "w")])
    as [(warnings & changes & Heq & Hwarn & Hiff & Hnew & Hold) _].
  exists changes. split; [|split; [|split]].
  - rewrite Heq, List.filter_app, Hwarn. reflexivity.
  - apply Hiff. split; [reflexivity | split; [reflexivity | discriminate]].
  - destruct (changes !! "a") as [[o n]|] eqn:E; [|reflexivity].
    apply Hiff in E as (Ho & Hn & Hne). cbn in Ho, Hn. congruence.
  - apply Hold. reflexivity.
Defined.

(** C1, as the spec states its example: the changes map for old
    [{a: "x", b: "y"}] and new [{a: "x", b: "z", c: "w"}] is not
    [{b: ("x", "z")}]. *)
Lemma compare_checksums_example_not_x_z :
  List.filter is_objupdate
    (compare_checksums {| designation := "host1"; JSON_OLD_checksums := None |}
       [("a", "x"); ("b", "y")] [("a", "x"); ("b", "z"); ("c", "w")]) <>
    [EObjUpdate "host1" "checksums" {[ "b" := ("x", "z") ]}].
Proof.
  rewrite compare_checksums_events. intros H.
  apply (f_equal (fun effects =>
                    match effects with
                    | [EObjUpdate _ _ changes] => changes !! "b"
                    | _ => None
                    end)) in H.
  cbv beta iota in H.
  rewrite compare_loop_lookup, lookup_singleton_eq in H. discriminate H.
Qed.

(** C2, as the code has it: when a checksum packet is compared with a
    previous snapshot, exactly one "object updated" event is emitted for
    the packet, whether or not a change was recorded; it carries
    [CHANGETYPE = "checksums"] and the changes map, which may be empty. *)
Theorem checksum_packet_one_event
    (jsonobj_str : JsonObj (dict string) -> string)
    (pyConfigContext : string -> JsonObj (dict string))
    (drone : Drone) (jsonobj : JsonObj (dict string)) (old : string) :
  JSON_OLD_checksums drone = Some old ->
  List.filter is_objupdate
    (snd (processchecksumpkt jsonobj_str pyConfigContext drone jsonobj)) =
    [EObjUpdate (designation drone) "checksums"
       (fst (compare_loop (designation drone) (data (pyConfigContext old))
               (data jsonobj)))].
Proof.
  intros Hold. unfold processchecksumpkt. rewrite Hold. cbn [snd].
  rewrite !List.filter_app. cbn [List.filter is_objupdate app].
  rewrite compare_checksums_events. reflexivity.
Qed.

Lemma checksum_packet_one_event_witness :
  List.filter is_objupdate
    (snd (processchecksumpkt example_str example_parse
            {| designation := "host1"; JSON_OLD_checksums := Some "a=x;b=y" |}
            {| discovertype := "checksum";
               data := [("a", "x"); ("b", "y")] |})) =
    [EObjUpdate "host1" "checksums"
       (fst (compare_loop "host1" (data (example_parse "a=x;b=y"))
               [("a", "x"); ("b", "y")]))].
Proof.
  apply (checksum_packet_one_event example_str example_parse
           {| designation := "host1"; JSON_OLD_checksums := Some "a=x;b=y" |}
           {| discovertype := "checksum"; data := [("a", "x"); ("b", "y")] |}
           "a=x;b=y").
  reflexivity.
Defined.

(** C2, as the spec states it: here the packet repeats the snapshot, no
    change is recorded, and the event is emitted all the same, so that "an
    event only if a change was recorded" fails. *)
Lemma event_without_change :
  let drone := {| designation := "host1"; JSON_OLD_checksums := Some "a=x" |} in
  let effects := compare_checksums drone [("a", "x")] [("a", "x")] in
  fst (compare_loop (designation drone) [("a", "x")] [("a", "x")]) = ∅ /\
  effects = [EObjUpdate "host1" "checksums" ∅] /\
  ~ ((exists e, e ∈ effects /\ is_objupdate e = true) ->
     fst (compare_loop (designation drone) [("a", "x")] [("a", "x")]) <> ∅).
Proof.
  cbv zeta. split; [reflexivity|]. split; [reflexivity|].
  intros H. apply H; [|reflexivity].
  exists (EObjUpdate "host1" "checksums" ∅). split; [|reflexivity].
  change (compare_checksums {| designation := "host1";
                               JSON_OLD_checksums := Some "a=x" |}
            [("a", "x")] [("a", "x")])
    with [EObjUpdate "host1" "checksums" ∅].
  apply list_elem_of_singleton. reflexivity.
Qed.

(** The loop of [processtcpdiscoverypkt] appends to the file list. *)
Lemma build_filelist_fold (d : dict ProcInfo) (procnames : list string)
    (filelist : list string) :
  fold_left
    (fun filelist '(_, procinfo) =>
       match procinfo with
       | Some pi => filelist ++ proc_files pi
       | None => filelist
       end)
    (map (fun k => (k, Dict.get d k)) procnames) filelist =
  filelist ++
    flat_map (fun procname =>
                match Dict.get d procname with
                | Some procinfo => proc_files procinfo
                | None => []
                end) procnames.
Proof.
  revert filelist. induction procnames as [|p procnames IH]; intros filelist.
  - simpl. rewrite app_nil_r. reflexivity.
  - cbn [map fold_left flat_map]. rewrite IH.
    destruct (Dict.get d p); [rewrite <- app_assoc|]; reflexivity.
Qed.

Lemma build_filelist_appended (d : dict ProcInfo) :
  build_filelist d = base_filelist ++ appended_files d.
Proof. apply build_filelist_fold. Qed.

(** C4, as the code has it: for every [tcpdiscovery] packet the request
    carries the eight checksum commands, each under [/usr/bin], and a file
    list that starts with five base files, [/bin/sh], [/bin/bash],
    [/bin/login], [/usr/bin/passwd] and [/tmp/foobar], followed by what the
    processes of the packet add. *)
Theorem tcpdiscovery_base_lists
    (JSONtree_str : ChecksumParameters -> string)
    (drone : Drone) (jsonobj : JsonObj (dict ProcInfo)) :
  let params := build_checksumparameters (data jsonobj) in
  processtcpdiscoverypkt JSONtree_str drone jsonobj =
    [ERequestDiscovery "_auto-checksums" 30 (JSONtree_str params);
     EPrint (RequestingChecksumMonitoring (ASSIM_filelist params))] /\
  ASSIM_sumcmds params =
    ["/usr/bin/sha256sum"; "/usr/bin/sha224sum"; "/usr/bin/sha384sum";
     "/usr/bin/sha512sum"; "/usr/bin/sha1sum"; "/usr/bin/md5sum";
     "/usr/bin/cksum"; "/usr/bin/crc32"] /\
  ASSIM_filelist params =
    ["/bin/sh"; "/bin/bash"; "/bin/login"; "/usr/bin/passwd"; "/tmp/foobar"]
      ++ appended_files (data jsonobj).
Proof.
  cbv zeta. split; [reflexivity|]. split; [reflexivity|].
  apply build_filelist_appended.
Qed.

(** C4, as the spec states it: for a packet without processes nothing is
    appended, and the file list is not the four files of the spec. *)
Lemma base_filelist_not_four :
  appended_files [] = [] /\
  ASSIM_filelist (build_checksumparameters []) <>
    ["/bin/sh"; "/bin/bash"; "/bin/login"; "/usr/bin/passwd"].
Proof. split; [reflexivity | discriminate]. Qed.

(** C5: the first checksum packet of a drone, with no snapshot stored, is
    not compared and emits no event: it prints its two lines and stores the
    snapshot; and after any checksum packet the stored snapshot is the text
    of that packet. *)
Theorem checksum_first_packet_and_snapshot
    (jsonobj_str : JsonObj (dict string) -> string)
    (pyConfigContext : string -> JsonObj (dict string))
    (drone : Drone) (jsonobj : JsonObj (dict string)) :
  (JSON_OLD_checksums drone = None ->
   snd (processchecksumpkt jsonobj_str pyConfigContext drone jsonobj) =
     [EPrint ProcessingChecksumData; EPrint UpdatingChecksumData]) /\
  JSON_OLD_checksums
    (fst (processchecksumpkt jsonobj_str pyConfigContext drone jsonobj)) =
    Some (jsonobj_str jsonobj) /\
  designation (fst (processchecksumpkt jsonobj_str pyConfigContext drone jsonobj))
    = designation drone.
Proof.
  split; [|split; reflexivity].
  intros Hnone. unfold processchecksumpkt. rewrite Hnone. reflexivity.
Qed.

Lemma checksum_first_packet_and_snapshot_witness :
  snd (processchecksumpkt example_str example_parse
         {| designation := "host1"; JSON_OLD_checksums := None |}
         {| discovertype := "checksum"; data := [("a", "x")] |}) =
    [EPrint ProcessingChecksumData; EPrint UpdatingChecksumData].
Proof.
  apply (proj1 (checksum_first_packet_and_snapshot example_str example_parse
                  {| designation := "host1"; JSON_OLD_checksums := None |}
                  {| discovertype := "checksum"; data := [("a", "x")] |})).
  reflexivity.
Defined.


(** The loop over [cmdline] takes the classpath after the first [-cp] that
    has a token after it. *)
Lemma classpath_jars_first (pre post : list string) (tok : string) :
  "-cp" ∉ pre ->
  classpath_jars (pre ++ "-cp" :: tok :: post) = PyStr.split ":" tok.
Proof.
  induction pre as [|a pre IH]; intros Hpre.
  - reflexivity.
  - apply not_elem_of_cons in Hpre as [Ha Hpre].
    change ((a :: pre) ++ "-cp" :: tok :: post)
      with (a :: (pre ++ "-cp" :: tok :: post)).
    cbn [classpath_jars].
    destruct (pre ++ "-cp" :: tok :: post) as [|next rest] eqn:E.
    + destruct pre; discriminate E.
    + destruct (String.eqb_spec a "-cp") as [->|_]; [congruence|].
      apply IH, Hpre.
Qed.

(** What a process of the packet adds is in the file list. *)
Lemma proc_files_in_filelist (d : dict ProcInfo) procname procinfo file :
  Dict.get d procname = Some procinfo ->
  file ∈ proc_files procinfo ->
  file ∈ build_filelist d.
Proof.
  intros Hget Hfile. rewrite build_filelist_appended.
  apply elem_of_app. right. unfold appended_files.
  apply list_elem_of_In, in_flat_map. exists procname. split.
  - apply list_elem_of_In. eapply dict_get_Some_keys, Hget.
  - rewrite Hget. apply list_elem_of_In, Hfile.
Qed.

(** C8, as the code has it: for every [tcpdiscovery] packet, a process
    [{exe: "/usr/bin/java", cmdline: ["java", "-cp", "/a.jar:/b.jar",
    "Main"]}] puts [/a.jar], [/b.jar] and [/usr/bin/java] in the file list;
    more generally, for a process whose [exe] ends with [/java], every
    segment between colons of the token after the first [-cp] of its
    [cmdline] is in the file list, with the executable itself. *)
Theorem java_classpath_in_filelist (jsonobj : JsonObj (dict ProcInfo))
    (procname : string) :
  let filelist := ASSIM_filelist (build_checksumparameters (data jsonobj)) in
  (Dict.get (data jsonobj) procname = Some java_process ->
   "/a.jar" ∈ filelist /\ "/b.jar" ∈ filelist /\ "/usr/bin/java" ∈ filelist) /\
  (forall exename pre tok post,
     Dict.get (data jsonobj) procname =
       Some {| exe := Some exename;
               cmdline := Some (pre ++ "-cp" :: tok :: post) |} ->
     PyStr.endswith exename "/java" = true ->
     "-cp" ∉ pre ->
     exename ∈ filelist /\
     forall segment, segment ∈ PyStr.split ":" tok -> segment ∈ filelist).
Proof.
  cbv zeta. cbn [ASSIM_filelist build_checksumparameters]. split.
  - intros Hget.
    repeat split; eapply proc_files_in_filelist; try exact Hget;
      apply list_elem_of_In; vm_compute; tauto.
  - intros exename pre tok post Hget Hjava Hpre. split.
    + eapply proc_files_in_filelist; [exact Hget|].
      unfold proc_files. cbn [exe]. left.
    + intros segment Hseg. eapply proc_files_in_filelist; [exact Hget|].
      unfold proc_files. cbn [exe cmdline]. rewrite Hjava. right.
      rewrite classpath_jars_first by assumption. exact Hseg.
Qed.

Lemma java_classpath_in_filelist_witness :
  let jsonobj := {| discovertype := "tcpdiscovery";
                    data := [("sshd", {| exe := Some "/usr/sbin/sshd";
                                        cmdline := None |});
                             ("java", java_process)] |} in
  "/a.jar" ∈ ASSIM_filelist (build_checksumparameters (data jsonobj)) /\
  "/b.jar" ∈ ASSIM_filelist (build_checksumparameters (data jsonobj)).
Proof.
  cbv zeta.
  pose proof (java_classpath_in_filelist
                {| discovertype := "tcpdiscovery";
                   data := [("sshd", {| exe := Some "/usr/sbin/sshd";
                                       cmdline := None |});
                            ("java", java_process)] |} "java") as [_ Hgen].
  specialize (Hgen "/usr/bin/java" ["java"] "/a.jar:/b.jar" ["Main"]
                eq_refl eq_refl).
  destruct Hgen as [_ Hseg].
  - intros Hin. apply list_elem_of_In in Hin. simpl in Hin.
    destruct Hin as [Hin|[]]. discriminate Hin.
  - split; apply Hseg; apply list_elem_of_In; vm_compute; tauto.
Defined.

(** C8, as the spec states it: a [cmdline] with two [-cp]. The second
    [-cp] is followed by [/b.jar], and [/b.jar] is not in the file list:
    the loop stops at the first [-cp]. *)
Lemma second_classpath_not_in_filelist :
  let jsonobj := {| discovertype := "tcpdiscovery";
                    data := [("java", java_process_two_cp)] |} in
  Dict.get (data jsonobj) "java" =
    Some {| exe := Some "/usr/bin/java";
            cmdline := Some (["java"; "-cp"; "/a.jar"] ++
                             "-cp" :: "/b.jar" :: []) |} /\
  PyStr.endswith "/usr/bin/java" "/java" = true /\
  "/b.jar" ∈ PyStr.split ":" "/b.jar" /\
  "/b.jar" ∉ ASSIM_filelist (build_checksumparameters (data jsonobj)).
Proof.
  cbv zeta. split; [reflexivity|]. split; [reflexivity|]. split.
  - apply list_elem_of_In. vm_compute. tauto.
  - intros Hin. apply list_elem_of_In in Hin. vm_compute in Hin.
    repeat (destruct Hin as [Hin|Hin]; [discriminate Hin|]). exact Hin.
Qed.

End ChecksumFacts.

(** ** The link listener *)

Module LinkFacts.
Import LinkDiscovery LinkSpec.

Section Facts.
Context `{Ext : Externals}.

(** *** The link-up filter *)

Lemma link_is_up_criteria (devinfo : dict Value) :
  link_is_up devinfo = true <-> link_up_criteria devinfo.
Proof.
  unfold link_is_up, link_up_criteria. split.
  - destruct (Dict.get devinfo "operstate") as [o|]; [|discriminate].
    destruct (Dict.get devinfo "carrier") as [c|]; [|discriminate].
    destruct (Dict.get devinfo "address") as [a|]; [|discriminate].
    intros H. apply andb_prop in H as [H H4]. apply andb_prop in H as [H H3].
    apply andb_prop in H as [H1 H2].
    apply String.eqb_eq in H1, H2.
    apply negb_true_iff, String.eqb_neq in H3, H4.
    exists o, c, a. repeat split; assumption.
  - intros (o & c & a & -> & -> & -> & H1 & H2 & H3 & H4).
    apply String.eqb_eq in H1, H2. apply String.eqb_neq in H3, H4.
    rewrite H1, H2, H3, H4. reflexivity.
Qed.

Lemma link_is_up_operstate (devinfo : dict Value) (operstate : Value) :
  Dict.get devinfo "operstate" = Some operstate ->
  py_str operstate <> "up" ->
  link_is_up devinfo = false.
Proof.
  intros Hget Hne. unfold link_is_up. rewrite Hget.
  destruct (Dict.get devinfo "carrier"); [|reflexivity].
  destruct (Dict.get devinfo "address"); [|reflexivity].
  apply String.eqb_neq in Hne. rewrite Hne. reflexivity.
Qed.

(** *** The loop of [processpkt_netconfig] *)

Lemma netconfig_loop_entries init_params (d : dict Value) devnames args :
  (forall devname, devname ∈ devnames ->
     exists devinfo, Dict.get d devname = Some (VDict devinfo)) ->
  netconfig_loop init_params d devnames args =
    Returns (args ++ map (switch_params init_params)
                       (List.filter
                          (fun devname =>
                             match Dict.get d devname with
                             | Some v => entry_is_up v
                             | None => false
                             end) devnames)).
Proof.
  revert args. induction devnames as [|devname devnames IH]; intros args Hall.
  - simpl. rewrite app_nil_r. reflexivity.
  - destruct (Hall devname) as [devinfo Hget]; [left|].
    cbn [netconfig_loop List.filter]. rewrite Hget.
    cbn [discovery_indicates_link_is_up entry_is_up].
    destruct (link_is_up devinfo).
    + rewrite IH by (intros; apply Hall; right; assumption).
      cbn [map]. rewrite <- app_assoc. reflexivity.
    + apply IH. intros; apply Hall; right; assumption.
Qed.

Lemma netconfig_entries_get (d : dict Value) devname :
  netconfig_entries d -> devname ∈ Dict.keys d ->
  exists devinfo, Dict.get d devname = Some (VDict devinfo).
Proof.
  intros Hall Hin. apply dict_keys_get in Hin as [v Hget].
  pose proof (dict_get_In _ _ _ Hget) as Hmem.
  unfold netconfig_entries in Hall. rewrite Forall_forall in Hall.
  specialize (Hall _ Hmem). destruct v; try contradiction. eauto.
Qed.

(** What [processpkt_netconfig] does with a packet whose device entries
    are dictionaries. *)
Lemma processpkt_netconfig_run self drone jsonobj w :
  netconfig_entries (data jsonobj) ->
  let init_params :=
    agent_params (config self) "discovery" "#SWITCH" (designation drone) in
  let batch := map (switch_params init_params) (devices_up (data jsonobj)) in
  processpkt_netconfig self drone jsonobj w =
    (Returns tt,
     {| store := store w;
        trace := trace w ++ match batch with
                            | [] => []
                            | _ :: _ => [ERequestDiscovery batch]
                            end |}).
Proof.
  intros Hall. cbv zeta. unfold processpkt_netconfig, bind, lift.
  rewrite netconfig_loop_entries
    by (intros; apply netconfig_entries_get; assumption).
  cbn [app]. fold (devices_up (data jsonobj)).
  destruct (map _ (devices_up (data jsonobj))); cbn.
  - rewrite app_nil_r. destruct w; reflexivity.
  - reflexivity.
Qed.

Lemma devices_up_spec (d : dict Value) devname :
  devname ∈ devices_up d <->
  exists v, Dict.get d devname = Some v /\ entry_is_up v = true.
Proof.
  unfold devices_up. rewrite list_elem_of_In, filter_In. split.
  - intros [_ H]. destruct (Dict.get d devname) as [v|]; [eauto|discriminate].
  - intros (v & Hget & Hup). split.
    + apply list_elem_of_In. eapply dict_get_Some_keys, Hget.
    + rewrite Hget. exact Hup.
Qed.

Lemma devices_up_length (d : dict Value) :
  NoDup (Dict.keys d) ->
  length (devices_up d) =
    length (List.filter (fun entry => entry_is_up (snd entry)) d).
Proof.
  intros Hnd. unfold devices_up.
  rewrite (dict_filter_keys
             (fun o => match o with Some v => entry_is_up v | None => false end)
             d d) by (intros; apply dict_get_nodup; assumption).
  unfold Dict.keys. apply length_map.
Qed.

(** C6: a device entry of a [netconfig] packet is taken into the batch
    if and only if its [operstate] is ["up"], its [carrier] is ["True"]
    and its [address] is there, not empty and not
    ["00-00-00-00-00-00"]. An entry with [operstate] ["down"] is never
    taken; one with ["up"], ["True"] and ["AA:BB:CC:DD:EE:FF"] is. *)
Theorem link_up_filter self drone jsonobj w :
  (forall devinfo,
     discovery_indicates_link_is_up (VDict devinfo) = Returns true <->
     link_up_criteria devinfo) /\
  (forall devinfo,
     Dict.get devinfo "operstate" = Some (VStr "down") ->
     discovery_indicates_link_is_up (VDict devinfo) = Returns false) /\
  (forall devinfo,
     Dict.get devinfo "operstate" = Some (VStr "up") ->
     Dict.get devinfo "carrier" = Some (VStr "True") ->
     Dict.get devinfo "address" = Some (VStr "AA:BB:CC:DD:EE:FF") ->
     discovery_indicates_link_is_up (VDict devinfo) = Returns true) /\
  (netconfig_entries (data jsonobj) ->
   exists devices,
     (forall devname,
        devname ∈ devices <->
        exists devinfo,
          Dict.get (data jsonobj) devname = Some (VDict devinfo) /\
          link_up_criteria devinfo) /\
     let batch :=
       map (switch_params (agent_params (config self) "discovery" "#SWITCH"
                             (designation drone))) devices in
     processpkt_netconfig self drone jsonobj w =
       (Returns tt,
        {| store := store w;
           trace := trace w ++ match batch with
                               | [] => []
                               | _ :: _ => [ERequestDiscovery batch]
                               end |})).
Proof.
  split; [|split; [|split]].
  - intros devinfo. cbn [discovery_indicates_link_is_up].
    rewrite <- link_is_up_criteria. split; [intros [= ->] | intros ->]; reflexivity.
  - intros devinfo Hget. cbn [discovery_indicates_link_is_up]. f_equal.
    eapply link_is_up_operstate; [exact Hget | discriminate].
  - intros devinfo Ho Hc Ha. cbn [discovery_indicates_link_is_up]. f_equal.
    apply link_is_up_criteria.
    exists (VStr "up"), (VStr "True"), (VStr "AA:BB:CC:DD:EE:FF").
    repeat split; try assumption; discriminate.
  - intros Hall. exists (devices_up (data jsonobj)). split.
    + intros devname. rewrite devices_up_spec. split.
      * intros (v & Hget & Hup).
        destruct (netconfig_entries_get (data jsonobj) devname Hall)
          as [devinfo Hd]; [eapply dict_get_Some_keys, Hget|].
        exists devinfo. split; [exact Hd|].
        apply link_is_up_criteria. rewrite Hd in Hget.
        injection Hget as <-. exact Hup.
      * intros (devinfo & Hget & Hcrit). exists (VDict devinfo).
        split; [exact Hget|]. apply link_is_up_criteria, Hcrit.
    + apply processpkt_netconfig_run, Hall.
Qed.

(** C7: a [netconfig] packet with N devices that satisfy the criteria
    issues one discovery request with N parameter sets when N is at
    least one, and no request when N is zero. *)
Theorem netconfig_one_batch_request self drone jsonobj w :
  NoDup (Dict.keys (data jsonobj)) ->
  netconfig_entries (data jsonobj) ->
  let N := length (List.filter (fun entry => entry_is_up (snd entry))
                     (data jsonobj)) in
  let result := processpkt_netconfig self drone jsonobj w in
  fst result = Returns tt /\
  store (snd result) = store w /\
  exists batch,
    length batch = N /\
    trace (snd result) =
      trace w ++ (if Nat.eqb N 0 then [] else [ERequestDiscovery batch]).
Proof.
  intros Hnd Hall. cbv zeta.
  rewrite (processpkt_netconfig_run self drone jsonobj w Hall).
  cbn [fst snd store trace]. split; [reflexivity|]. split; [reflexivity|].
  eexists. split.
  - rewrite length_map. apply devices_up_length, Hnd.
  - rewrite <- devices_up_length by exact Hnd.
    destruct (devices_up (data jsonobj)); reflexivity.
Qed.

(** *** [processpkt] and [processpkt_linkdiscovery] *)

(** C10: with [discoverychanged] false, [processpkt] returns at once and
    leaves the world as it found it: nothing in the store, no request,
    no line logged or printed, whatever the kind and the contents of the
    packet. *)
Theorem processpkt_unchanged_does_nothing self drone jsonobj w :
  let result := processpkt self drone jsonobj false w in
  result = (Returns tt, w) /\
  store (snd result) = store w /\
  trace (snd result) = trace w.
Proof.
  cbv zeta. unfold processpkt. cbn [negb].
  split; [|split]; reflexivity.
Qed.

(** C9: a [__LinkDiscovery] packet without [ChassisId] logs one warning
    and returns: the store is as it was, and nothing but the warning is
    added to the trace, so no [load_or_create], [relate], [relate_new] or
    [addrole]. *)
Theorem linkdiscovery_without_chassisid self drone jsonobj w :
  Dict.get (data jsonobj) "ChassisId" = None ->
  let result := processpkt_linkdiscovery self drone jsonobj w in
  result =
    (Returns tt,
     {| store := store w;
        trace := trace w ++ [ELog Warning (ChassisIdMissing (data jsonobj))] |}) /\
  (discovertype jsonobj = "__LinkDiscovery" ->
   processpkt self drone jsonobj true w = result) /\
  List.filter is_graph_mutation (trace (snd result)) =
    List.filter is_graph_mutation (trace w).
Proof.
  intros Hnone. cbv zeta. unfold processpkt_linkdiscovery. rewrite Hnone.
  split; [reflexivity|]. split.
  - intros Htype. unfold processpkt, processpkt_linkdiscovery.
    rewrite Htype, Hnone. reflexivity.
  - cbn [emit snd trace]. rewrite List.filter_app. cbn. apply app_nil_r.
Qed.
End Facts.

Lemma link_up_filter_witness :
  exists devices,
    ("eth0" ∈ devices) /\ ("eth1" ∉ devices) /\
    @processpkt_netconfig ExampleExternals example_listener example_drone
      example_netconfig example_world =
      (Returns tt,
       @Build_World ExampleExternals (@store ExampleExternals example_world)
         [@ERequestDiscovery ExampleExternals
            (map (@switch_params ExampleExternals ∅) devices)]).
Proof.
  destruct (@link_up_filter ExampleExternals example_listener example_drone
              example_netconfig example_world) as (_ & _ & _ & Hbatch).
  destruct Hbatch as (devices & Hin & Hrun).
  - repeat constructor.
  - exists devices. split; [|split].
    + apply Hin. eexists. split; [reflexivity|].
      apply link_is_up_criteria. reflexivity.
    + intros H. apply Hin in H as (devinfo & Hget & Hcrit).
      injection Hget as <-. apply link_is_up_criteria in Hcrit.
      discriminate Hcrit.
    + cbv zeta in Hrun. rewrite Hrun.
      assert (Hne : devices <> []).
      { intros ->. assert (H0 : "eth0" ∈ @nil string).
        { apply Hin. eexists. split; [reflexivity|].
          apply link_is_up_criteria. reflexivity. }
        apply elem_of_nil in H0. exact H0. }
      destruct devices; [contradiction|]. reflexivity.
Defined.

Lemma netconfig_one_batch_request_witness :
  exists batch,
    length batch = 2 /\
    @trace ExampleExternals
      (snd (@processpkt_netconfig ExampleExternals example_listener
              example_drone example_netconfig example_world)) =
      [@ERequestDiscovery ExampleExternals batch].
Proof.
  destruct (@netconfig_one_batch_request ExampleExternals example_listener
              example_drone example_netconfig example_world)
    as (_ & _ & batch & Hlen & Htrace).
  - cbn. repeat (apply NoDup_cons; split;
                 [intros H; apply list_elem_of_In in H; simpl in H;
                  repeat (destruct H as [H|H]; [discriminate H|]); exact H|]).
    apply NoDup_nil. exact I.
  - repeat constructor.
  - exists batch. split; [exact Hlen | exact Htrace].
Defined.

Lemma linkdiscovery_without_chassisid_witness :
  @processpkt ExampleExternals example_listener example_drone
    example_no_chassis true example_world =
    (Returns tt,
     @Build_World ExampleExternals (@store ExampleExternals example_world)
       [@ELog ExampleExternals Warning
          (ChassisIdMissing (data example_no_chassis))]).
Proof.
  destruct (@linkdiscovery_without_chassisid ExampleExternals example_listener
              example_drone example_no_chassis example_world eq_refl)
    as (Hrun & Hpkt & _).
  rewrite (Hpkt eq_refl). exact Hrun.
Defined.


Section Ports.
Context `{Ext : Externals}.

(** The first port of a packet, up to the [try]: the NIC is created and
    related to the switch. *)
Lemma process_port_upto_try drone switch chassisid name thisport rest w :
  (exists portid, Dict.get thisport "PortId" = Some portid) ->
  existsb (fun k => Dict.mem k thisport) nic_keywords = false ->
  process_port drone switch chassisid ((name, VDict thisport) :: rest) name w =
    let created :=
      load_or_create (store w) NICNode (nic_attrs drone chassisid thisport) in
    try_except_KeyError (wire_port drone (snd created) thisport)
      (emit (ELog Error OopsException))
      {| store := relate (fst created) switch REL_nicowner (snd created)
                    {["causes" := VBool true]};
         trace := trace w ++
                  [ELoadOrCreate NICNode (nic_attrs drone chassisid thisport);
                   ERelate switch REL_nicowner (snd created)
                     {["causes" := VBool true]}] |}.
Proof.
  intros [portid Hportid] Hkw. cbv zeta.
  unfold process_port, bind, lift, getitem, as_dict.
  rewrite dict_get_cons, String.eqb_refl, Hportid, Hkw.
  unfold do_load_or_create, do_relate, nic_attrs. rewrite Hportid.
  destruct (load_or_create _ _ _) as [s nicnode]. cbn [fst snd store trace].
  rewrite <- app_assoc. reflexivity.
Qed.

(** C3, where the code leaves the claim: the first port of the packet
    names another host in [ConnectsToHost]. Its NIC is created and
    related to the switch, then the [assert] fails; [except KeyError]
    does not catch that, [_process_ports] raises [AssertionError], no
    error is logged, and no port after it is looked at, whatever the rest
    of the packet holds. *)
Theorem process_ports_other_host_aborts drone switch chassisid name thisport
    rest w :
  names_other_host drone thisport ->
  let created :=
    load_or_create (store w) NICNode (nic_attrs drone chassisid thisport) in
  _process_ports drone switch chassisid
    (VDict ((name, VDict thisport) :: rest)) w =
    (Raises AssertionError,
     {| store := relate (fst created) switch REL_nicowner (snd created)
                   {["causes" := VBool true]};
        trace := trace w ++
                 [ELoadOrCreate NICNode (nic_attrs drone chassisid thisport);
                  ERelate switch REL_nicowner (snd created)
                    {["causes" := VBool true]}] |}).
Proof.
  intros (Hportid & Hkw & host & Hhost & Hne). cbv zeta.
  unfold _process_ports, bind at 1, lift, as_dict.
  cbn [Dict.keys map fst for_each]. unfold bind at 1.
  rewrite process_port_upto_try by assumption. cbv zeta.
  unfold try_except_KeyError, wire_port, bind, lift, getitem.
  rewrite Hhost, Hne. reflexivity.
Qed.

(** A port without its cross-reference: the [KeyError] is caught, one
    error is logged, and the loop goes on with the ports after it. *)
Lemma process_ports_missing_field_continues drone switch chassisid name
    thisport rest w :
  lacks_cross_reference drone thisport ->
  let created :=
    load_or_create (store w) NICNode (nic_attrs drone chassisid thisport) in
  let ports := (name, VDict thisport) :: rest in
  _process_ports drone switch chassisid (VDict ports) w =
    for_each (Dict.keys rest) (process_port drone switch chassisid ports)
      {| store := relate (fst created) switch REL_nicowner (snd created)
                    {["causes" := VBool true]};
         trace := trace w ++
                  [ELoadOrCreate NICNode (nic_attrs drone chassisid thisport);
                   ERelate switch REL_nicowner (snd created)
                     {["causes" := VBool true]};
                   ELog Error OopsException] |}.
Proof.
  intros (Hportid & Hkw & Hmiss). cbv zeta.
  unfold _process_ports, bind at 1, lift, as_dict.
  cbn [Dict.keys map fst for_each]. unfold bind at 1.
  rewrite process_port_upto_try by assumption. cbv zeta.
  unfold try_except_KeyError, wire_port, bind, lift, getitem.
  destruct Hmiss as [Hhost | [(host & Hhost & Heq) Hif]].
  - rewrite Hhost. cbn [emit store trace]. rewrite <- app_assoc. reflexivity.
  - rewrite Hhost, Heq, Hif. cbn [emit store trace].
    rewrite <- app_assoc. reflexivity.
Qed.
End Ports.

Lemma process_ports_other_host_aborts_witness :
  fst (@_process_ports ExampleExternals example_drone "00-11-22-33-44-55"
         (VStr "00-11-22-33-44-55") (VDict example_ports) example_world) =
    Raises AssertionError /\
  List.filter (@is_load_or_create ExampleExternals)
    (@trace ExampleExternals
       (snd (@_process_ports ExampleExternals example_drone "00-11-22-33-44-55"
               (VStr "00-11-22-33-44-55") (VDict example_ports) example_world))) =
    [@ELoadOrCreate ExampleExternals NICNode
       (@nic_attrs ExampleExternals example_drone (VStr "00-11-22-33-44-55")
          port_other_host)].
Proof.
  unfold example_ports.
  rewrite (@process_ports_other_host_aborts ExampleExternals example_drone
             "00-11-22-33-44-55" (VStr "00-11-22-33-44-55") "p1" port_other_host
             [("p2", VDict port_this_host)] example_world).
  - split; reflexivity.
  - split; [eexists; reflexivity|]. split; [reflexivity|].
    eexists. split; reflexivity.
Defined.


(** The same at the level of the packet: [processpkt] on a
    [__LinkDiscovery] packet whose first port names another host raises
    [AssertionError]; one NIC was created, for the first port, and no error
    was logged. *)
Example linkdiscovery_packet_aborts :
  let result := @processpkt ExampleExternals example_listener example_drone
                  example_linkdiscovery true example_world in
  fst result = Raises AssertionError /\
  List.filter (@is_load_or_create ExampleExternals)
    (@trace ExampleExternals (snd result)) =
    [@ELoadOrCreate ExampleExternals SystemNode
       (@switch_attrs ExampleExternals example_drone
          (data example_linkdiscovery) (VStr "00-11-22-33-44-55"));
     @ELoadOrCreate ExampleExternals NICNode
       (@nic_attrs ExampleExternals example_drone (VStr "00-11-22-33-44-55")
          port_other_host)] /\
  List.filter (@is_error_log ExampleExternals)
    (@trace ExampleExternals (snd result)) = [].
Proof. vm_compute. repeat split. Qed.

(** A port without [ConnectsToHost] before a port of this host: the error
    is logged, and the second port is created and wired to [eth0]. *)
Example missing_field_then_wired :
  let result := @_process_ports ExampleExternals example_drone
                  "00-11-22-33-44-55" (VStr "00-11-22-33-44-55")
                  (VDict [("p3", VDict port_no_host);
                          ("p2", VDict port_this_host)]) example_world in
  fst result = Returns tt /\
  List.filter (@is_error_log ExampleExternals)
    (@trace ExampleExternals (snd result)) =
    [@ELog ExampleExternals Error OopsException] /\
  @store ExampleExternals (snd result) =
    [("host1", "nicowner", "eth0");
     ("00-11-22-33-44-55", "nicowner", "Gi0/3");
     ("00-11-22-33-44-55", "nicowner", "Gi0/2");
     ("Gi0/2", "wiredto", "eth0")].
Proof. vm_compute. repeat split. Qed.

End LinkFacts.

(** ** The checksum listener: warnings, replays, file list *)

Module ChecksumMore.
Import ChecksumDiscovery ChecksumSpec ChecksumAux ChecksumFacts.

(** *** [compare_checksums] *)

Lemma compare_step_unchanged system oldobj newobj acc file :
  checksum_change oldobj newobj file = None ->
  compare_step system oldobj newobj acc file = acc.
Proof.
  unfold compare_step, checksum_change.
  destruct (Dict.get newobj file), (Dict.get oldobj file); try reflexivity.
  destruct (String.eqb _ _); [reflexivity | discriminate].
Qed.

Lemma compare_step_changed system oldobj newobj acc file oldsum newsum :
  checksum_change oldobj newobj file = Some (oldsum, newsum) ->
  snd (compare_step system oldobj newobj acc file) =
    snd acc ++ [ELogWarning system file oldsum newsum].
Proof.
  unfold compare_step, checksum_change.
  destruct (Dict.get newobj file), (Dict.get oldobj file); try discriminate.
  destruct (String.eqb _ _); [discriminate|]. intros [= -> ->]. reflexivity.
Qed.

Lemma compare_fold_warning system oldobj newobj files acc e :
  e ∈ snd (fold_left (compare_step system oldobj newobj) files acc) <->
  e ∈ snd acc \/
  exists file oldsum newsum,
    file ∈ files /\
    checksum_change oldobj newobj file = Some (oldsum, newsum) /\
    e = ELogWarning system file oldsum newsum.
Proof.
  revert acc. induction files as [|f files IH]; intros acc; cbn [fold_left].
  - split; [auto|]. intros [H|(file & o & n & Hin & _)]; [exact H|].
    apply elem_of_nil in Hin. contradiction.
  - rewrite IH. destruct (checksum_change oldobj newobj f) as [[o n]|] eqn:Hc.
    + rewrite (compare_step_changed _ _ _ _ _ _ _ Hc), elem_of_app,
        list_elem_of_singleton.
      split.
      * intros [[H| ->]|(file & o' & n' & Hin & Hch & ->)].
        -- left. exact H.
        -- right. exists f, o, n. split; [left|]. split; [exact Hc|reflexivity].
        -- right. exists file, o', n'. split; [right; exact Hin|].
           split; [exact Hch|reflexivity].
      * intros [H|(file & o' & n' & Hin & Hch & ->)]; [left; left; exact H|].
        apply elem_of_cons in Hin as [->|Hin].
        -- rewrite Hc in Hch. injection Hch as <- <-. left. right. reflexivity.
        -- right. exists file, o', n'. auto.
    + rewrite (compare_step_unchanged _ _ _ _ _ Hc). split.
      * intros [H|(file & o' & n' & Hin & Hch & ->)]; [left; exact H|].
        right. exists file, o', n'. split; [right; exact Hin|]. auto.
      * intros [H|(file & o' & n' & Hin & Hch & ->)]; [left; exact H|].
        apply elem_of_cons in Hin as [->|Hin]; [congruence|].
        right. exists file, o', n'. auto.
Qed.

(** X1: one warning for every recorded change and no other: a warning for a
    file with its two checksums is logged exactly when the file is in both
    snapshots with these two checksums, and they differ; the system named
    in it is the designation of the drone. *)
Theorem compare_checksums_warnings drone oldobj newobj system file oldsum newsum :
  ELogWarning system file oldsum newsum ∈ compare_checksums drone oldobj newobj <->
  system = designation drone /\
  Dict.get oldobj file = Some oldsum /\
  Dict.get newobj file = Some newsum /\
  oldsum <> newsum.
Proof.
  rewrite <- checksum_change_Some. unfold compare_checksums.
  pose proof (compare_fold_warning (designation drone) oldobj newobj
                (Dict.keys oldobj) (∅, [])
                (ELogWarning system file oldsum newsum)) as Hfold.
  fold (compare_loop (designation drone) oldobj newobj) in Hfold.
  destruct (compare_loop (designation drone) oldobj newobj) as [changes warnings].
  cbn [snd] in Hfold. rewrite elem_of_app, list_elem_of_singleton, Hfold.
  split.
  - intros [[Hnil|(f & o & n & _ & Hch & [= -> -> -> ->])]|Heq].
    + apply elem_of_nil in Hnil. contradiction.
    + split; [reflexivity | exact Hch].
    + discriminate Heq.
  - intros [-> Hch]. left. right. exists file, oldsum, newsum.
    split; [|split; [exact Hch | reflexivity]].
    unfold checksum_change in Hch.
    destruct (Dict.get oldobj file) as [o|] eqn:Hold; [|discriminate].
    eapply dict_get_Some_keys, Hold.
Qed.

Lemma compare_fold_unchanged system oldobj newobj files acc :
  (forall file, file ∈ files -> checksum_change oldobj newobj file = None) ->
  fold_left (compare_step system oldobj newobj) files acc = acc.
Proof.
  revert acc. induction files as [|f files IH]; intros acc Hall; [reflexivity|].
  cbn [fold_left]. rewrite compare_step_unchanged by (apply Hall; left).
  apply IH. intros; apply Hall; right; assumption.
Qed.

(** X2: when no file that is in both snapshots has changed, the call is one
    event with an empty changes map, and no warning; files that came or
    went do not matter. *)
Theorem compare_checksums_nothing_changed drone oldobj newobj :
  (forall file oldsum newsum,
     Dict.get oldobj file = Some oldsum ->
     Dict.get newobj file = Some newsum -> oldsum = newsum) ->
  compare_checksums drone oldobj newobj =
    [EObjUpdate (designation drone) "checksums" ∅].
Proof.
  intros Hsame. unfold compare_checksums, compare_loop.
  rewrite compare_fold_unchanged; [reflexivity|].
  intros file _. unfold checksum_change.
  destruct (Dict.get oldobj file) as [o|] eqn:Ho; [|reflexivity].
  destruct (Dict.get newobj file) as [n|] eqn:Hn; [|reflexivity].
  rewrite (Hsame file o n Ho Hn), String.eqb_refl. reflexivity.
Qed.

Lemma compare_checksums_nothing_changed_witness :
  compare_checksums {| designation := "host1"; JSON_OLD_checksums := None |}
    [("a", "x"); ("gone", "y")] [("new", "w"); ("a", "x")] =
    [EObjUpdate "host1" "checksums" ∅].
Proof.
  apply (compare_checksums_nothing_changed
           {| designation := "host1"; JSON_OLD_checksums := None |}
           [("a", "x"); ("gone", "y")] [("new", "w"); ("a", "x")]).
  intros file oldsum newsum. rewrite !dict_get_cons.
  destruct (String.eqb_spec "a" file) as [<-|Ha]; [cbn; congruence|].
  destruct (String.eqb_spec "gone" file) as [<-|Hgone]; cbn; [|discriminate].
  destruct (String.eqb_spec "new" "gone"); discriminate.
Defined.

(** X3: comparing the other way round records the same files with their
    pairs swapped. *)
Theorem compare_checksums_swapped system system' oldobj newobj file :
  fst (compare_loop system newobj oldobj) !! file =
    swap_change <$> fst (compare_loop system' oldobj newobj) !! file.
Proof.
  rewrite !compare_loop_lookup. unfold checksum_change.
  destruct (Dict.get oldobj file) as [o|], (Dict.get newobj file) as [n|];
    try reflexivity.
  rewrite (String.eqb_sym n o). destruct (String.eqb o n); reflexivity.
Qed.


(** *** [processchecksumpkt], one packet after another *)

(** X4: two checksum packets in a row: the second is compared with the first.
    Its one event carries the changes from the data of the first packet to
    the data of the second, and the snapshot left is the text of the
    second. *)
Theorem checksum_packets_in_a_row
    (jsonobj_str : JsonObj (dict string) -> string)
    (pyConfigContext : string -> JsonObj (dict string))
    (drone : Drone) (first second : JsonObj (dict string)) :
  reads_back jsonobj_str pyConfigContext first ->
  let after_first :=
    fst (processchecksumpkt jsonobj_str pyConfigContext drone first) in
  let result :=
    processchecksumpkt jsonobj_str pyConfigContext after_first second in
  List.filter is_objupdate (snd result) =
    [EObjUpdate (designation drone) "checksums"
       (fst (compare_loop (designation drone) (data first) (data second)))] /\
  JSON_OLD_checksums (fst result) = Some (jsonobj_str second).
Proof.
  intros Hread. unfold reads_back in Hread. cbv zeta. split; [|reflexivity].
  unfold processchecksumpkt. cbn [fst JSON_OLD_checksums designation snd].
  rewrite Hread, !List.filter_app. cbn [List.filter is_objupdate app].
  rewrite compare_checksums_events. reflexivity.
Qed.

Lemma checksum_packets_in_a_row_witness :
  List.filter is_objupdate
    (snd (processchecksumpkt example_str example_parse
            (fst (processchecksumpkt example_str example_parse
                    {| designation := "host1"; JSON_OLD_checksums := None |}
                    {| discovertype := "checksum";
                       data := [("a", "x"); ("b", "y")] |}))
            {| discovertype := "checksum";
               data := [("a", "x"); ("b", "z")] |})) =
    [EObjUpdate "host1" "checksums"
       (fst (compare_loop "host1" [("a", "x"); ("b", "y")]
               [("a", "x"); ("b", "z")]))].
Proof.
  apply (checksum_packets_in_a_row example_str example_parse
           {| designation := "host1"; JSON_OLD_checksums := None |}
           {| discovertype := "checksum"; data := [("a", "x"); ("b", "y")] |}
           {| discovertype := "checksum"; data := [("a", "x"); ("b", "z")] |}).
  reflexivity.
Defined.

(** X5: the same packet twice: the second time nothing is logged, and the
    event is emitted with an empty changes map. *)
Theorem checksum_packet_replayed
    (jsonobj_str : JsonObj (dict string) -> string)
    (pyConfigContext : string -> JsonObj (dict string))
    (drone : Drone) (jsonobj : JsonObj (dict string)) :
  reads_back jsonobj_str pyConfigContext jsonobj ->
  let after_first :=
    fst (processchecksumpkt jsonobj_str pyConfigContext drone jsonobj) in
  snd (processchecksumpkt jsonobj_str pyConfigContext after_first jsonobj) =
    [EPrint ProcessingChecksumData; EPrint ComparingChecksumData;
     EObjUpdate (designation drone) "checksums" ∅;
     EPrint UpdatingChecksumData].
Proof.
  intros Hread. unfold reads_back in Hread. cbv zeta.
  unfold processchecksumpkt. cbn [fst JSON_OLD_checksums designation snd].
  rewrite Hread, compare_checksums_nothing_changed; [reflexivity|].
  intros file oldsum newsum Ho Hn. congruence.
Qed.

Lemma checksum_packet_replayed_witness :
  snd (processchecksumpkt example_str example_parse
         (fst (processchecksumpkt example_str example_parse
                 {| designation := "host1"; JSON_OLD_checksums := None |}
                 {| discovertype := "checksum";
                    data := [("a", "x"); ("b", "y")] |}))
         {| discovertype := "checksum"; data := [("a", "x"); ("b", "y")] |}) =
    [EPrint ProcessingChecksumData; EPrint ComparingChecksumData;
     EObjUpdate "host1" "checksums" ∅; EPrint UpdatingChecksumData].
Proof.
  apply (checksum_packet_replayed example_str example_parse
           {| designation := "host1"; JSON_OLD_checksums := None |}
           {| discovertype := "checksum"; data := [("a", "x"); ("b", "y")] |}).
  reflexivity.
Defined.

(** *** The file list of [processtcpdiscoverypkt] *)

Lemma proc_files_elem procinfo file :
  file ∈ proc_files procinfo <->
  exe procinfo = Some file \/
  exists exename cl,
    exe procinfo = Some exename /\
    PyStr.endswith exename "/java" = true /\
    cmdline procinfo = Some cl /\
    file ∈ classpath_jars cl.
Proof.
  unfold proc_files. destruct (exe procinfo) as [exename|].
  - rewrite elem_of_cons. split.
    + intros [->|Hin]; [left; reflexivity|]. right.
      destruct (PyStr.endswith exename "/java") eqn:Hjava;
        [|apply elem_of_nil in Hin; contradiction].
      destruct (cmdline procinfo) as [cl|];
        [|apply elem_of_nil in Hin; contradiction].
      exists exename, cl. split; [reflexivity|]. split; [exact Hjava|].
      split; [reflexivity | exact Hin].
    + intros [[= ->]|(e & cl & [= <-] & Hjava & Hcl & Hin)]; [left; reflexivity|].
      right. rewrite Hjava, Hcl. exact Hin.
  - split.
    + intros Hin. apply elem_of_nil in Hin. contradiction.
    + intros [H|(e & cl & H & _)]; discriminate H.
Qed.

(** X6: nothing else gets into the file list: a file is in it exactly when it
    is one of the base files, the [exe] of a process of the packet, or a
    classpath entry of a process whose [exe] ends with [/java]. No other
    token of a [cmdline], and nothing of a process without [exe], is ever
    asked to be checksummed. *)
Theorem filelist_members (d : dict ProcInfo) (file : string) :
  file ∈ build_filelist d <->
  file ∈ base_filelist \/
  exists procname procinfo,
    Dict.get d procname = Some procinfo /\
    (exe procinfo = Some file \/
     exists exename cl,
       exe procinfo = Some exename /\
       PyStr.endswith exename "/java" = true /\
       cmdline procinfo = Some cl /\
       file ∈ classpath_jars cl).
Proof.
  rewrite build_filelist_appended, elem_of_app. unfold appended_files. split.
  - intros [Hbase|Hin]; [left; exact Hbase|]. right.
    apply list_elem_of_In, in_flat_map in Hin as (procname & Hkey & Hin).
    destruct (Dict.get d procname) as [procinfo|] eqn:Hget; [|destruct Hin].
    exists procname, procinfo. split; [exact Hget|].
    apply proc_files_elem, list_elem_of_In, Hin.
  - intros [Hbase|(procname & procinfo & Hget & Hin)]; [left; exact Hbase|].
    right. apply list_elem_of_In, in_flat_map. exists procname. split.
    + apply list_elem_of_In. eapply dict_get_Some_keys, Hget.
    + rewrite Hget. apply list_elem_of_In, proc_files_elem, Hin.
Qed.

(** A [cmdline] either has a first [-cp] with a token after it, and the
    loop takes that token apart, or has none, and the loop finds nothing. *)
Lemma classpath_jars_cases (cl : list string) :
  (exists pre tok post,
     cl = pre ++ "-cp" :: tok :: post /\ ("-cp" ∉ pre) /\
     classpath_jars cl = PyStr.split ":" tok) \/
  ((forall pre tok post, cl <> pre ++ "-cp" :: tok :: post) /\
   classpath_jars cl = []).
Proof.
  induction cl as [|a cl IH].
  - right. split; [|reflexivity]. intros pre tok post H.
    destruct pre; discriminate H.
  - destruct cl as [|next rest].
    + right. split; [|reflexivity]. intros pre tok post H.
      destruct pre as [|p [|q pre]]; discriminate H.
    + destruct (String.eqb_spec a "-cp") as [->|Ha].
      * left. exists [], next, rest. split; [reflexivity|].
        split; [apply not_elem_of_nil | reflexivity].
      * cbn [classpath_jars]. apply String.eqb_neq in Ha as Ha'. rewrite Ha'.
        destruct IH as [(pre & tok & post & Hcl & Hpre & Hjars)|[Hnone Hjars]].
        -- left. exists (a :: pre), tok, post. split; [rewrite Hcl; reflexivity|].
           split; [|exact Hjars].
           apply not_elem_of_cons. split; [congruence | exact Hpre].
        -- right. split; [|exact Hjars]. intros pre tok post H.
           destruct pre as [|p pre].
           ++ injection H as H _. contradiction.
           ++ injection H as _ H. exact (Hnone pre tok post H).
Qed.

(** X7: a Java process whose [cmdline] has no [-cp] with a token after it,
    a [-cp] as the last token included, adds its executable and nothing
    else. *)
Theorem java_without_classpath (exename : string) (cl : list string) :
  (forall pre tok post, cl <> pre ++ "-cp" :: tok :: post) ->
  proc_files {| exe := Some exename; cmdline := Some cl |} = [exename].
Proof.
  intros Hnone. unfold proc_files. cbn [exe cmdline].
  destruct (PyStr.endswith exename "/java"); [|reflexivity].
  destruct (classpath_jars_cases cl)
    as [(pre & tok & post & Hcl & _)|[_ ->]]; [|reflexivity].
  exfalso. exact (Hnone pre tok post Hcl).
Qed.

Lemma java_without_classpath_witness :
  proc_files {| exe := Some "/usr/bin/java";
                cmdline := Some ["java"; "-jar"; "app.jar"; "-cp"] |} =
    ["/usr/bin/java"].
Proof.
  apply (java_without_classpath "/usr/bin/java"
           ["java"; "-jar"; "app.jar"; "-cp"]).
  intros pre tok post H.
  destruct pre as [|p1 [|p2 [|p3 [|p4 pre]]]]; try discriminate H.
  destruct pre; discriminate H.
Defined.


(** *** The classpath taken apart, and the test for [/java] *)

Lemma split_not_nil (sep : ascii) (s : string) : PyStr.split sep s <> [].
Proof.
  destruct s as [|c rest]; cbn [PyStr.split]; [discriminate|].
  destruct (Ascii.eqb c sep); [discriminate|].
  destruct (PyStr.split sep rest); discriminate.
Qed.

Lemma join_cons_char (sep c : ascii) (segment : string) (segments : list string) :
  join sep (String c segment :: segments) = String c (join sep (segment :: segments)).
Proof. unfold join. destruct segments; reflexivity. Qed.

(** X8: the entries of a classpath, joined again with the separator, are the
    classpath; there is one entry more than there are separators, and no
    entry has a separator in it. *)
Theorem split_join (sep : ascii) (s : string) :
  join sep (PyStr.split sep s) = s /\
  length (PyStr.split sep s) = S (occurrences sep s) /\
  Forall (fun segment => occurrences sep segment = 0) (PyStr.split sep s).
Proof.
  induction s as [|c rest (IHjoin & IHlen & IHall)].
  - split; [reflexivity|]. split; [reflexivity|]. repeat constructor.
  - cbn [PyStr.split occurrences].
    destruct (Ascii.eqb_spec c sep) as [->|Hne].
    + split; [|split].
      * unfold join in *. cbn [String.concat].
        destruct (PyStr.split sep rest) as [|seg segs] eqn:E;
          [exfalso; exact (split_not_nil sep rest E)|].
        rewrite IHjoin. reflexivity.
      * cbn [length]. rewrite IHlen. reflexivity.
      * constructor; [reflexivity | exact IHall].
    + destruct (PyStr.split sep rest) as [|seg segs] eqn:E;
        [exfalso; exact (split_not_nil sep rest E)|].
      split; [|split].
      * rewrite join_cons_char, IHjoin. reflexivity.
      * cbn [length] in *. exact IHlen.
      * apply Forall_cons in IHall as [Hseg Hsegs].
        constructor; [|exact Hsegs].
        cbn [occurrences]. destruct (Ascii.eqb_spec c sep); [contradiction|].
        exact Hseg.
Qed.

Lemma endswith_suffix (s suffix : string) :
  PyStr.endswith s suffix = true <-> exists pre, s = String.append pre suffix.
Proof.
  split.
  - induction s as [|c rest IH]; cbn [PyStr.endswith].
    + destruct (String.eqb_spec "" suffix) as [<-|_]; [|discriminate].
      intros _. exists "". reflexivity.
    + destruct (String.eqb_spec (String c rest) suffix) as [<-|_].
      * intros _. exists "". reflexivity.
      * intros H. destruct (IH H) as [pre ->]. exists (String c pre). reflexivity.
  - intros [pre ->]. induction pre as [|c pre IH].
    + change (String.append "" suffix) with suffix.
      destruct suffix; cbn [PyStr.endswith];
        rewrite String.eqb_refl; reflexivity.
    + change (String.append (String c pre) suffix)
        with (String c (String.append pre suffix)).
      cbn [PyStr.endswith]. rewrite IH.
      destruct (String.eqb _ _); reflexivity.
Qed.

(** X9: the classpath of a process is read exactly when its [exe] is some
    path followed by [/java]: then the process adds its executable and the
    entries found in its [cmdline]; any other process adds its executable
    alone, whatever its [cmdline] holds. *)
Theorem java_executables (exename : string) (cl : list string) :
  ((exists dir, exename = String.append dir "/java") ->
   proc_files {| exe := Some exename; cmdline := Some cl |} =
     exename :: classpath_jars cl) /\
  ((forall dir, exename <> String.append dir "/java") ->
   proc_files {| exe := Some exename; cmdline := Some cl |} = [exename]).
Proof.
  unfold proc_files. cbn [exe cmdline]. split.
  - intros Hdir. apply endswith_suffix in Hdir. rewrite Hdir. reflexivity.
  - intros Hnone. destruct (PyStr.endswith exename "/java") eqn:E; [|reflexivity].
    apply endswith_suffix in E as [dir ->]. exfalso. exact (Hnone dir eq_refl).
Qed.

Lemma java_executables_witness :
  proc_files {| exe := Some "/opt/jdk/bin/java";
                cmdline := Some ["java"; "-cp"; "a.jar:b.jar"] |} =
    ["/opt/jdk/bin/java"; "a.jar"; "b.jar"] /\
  proc_files {| exe := Some "java"; cmdline := Some ["java"; "-cp"; "a.jar"] |} =
    ["java"].
Proof.
  split.
  - apply (proj1 (java_executables "/opt/jdk/bin/java"
                    ["java"; "-cp"; "a.jar:b.jar"])).
    exists "/opt/jdk/bin". reflexivity.
  - apply (proj2 (java_executables "java" ["java"; "-cp"; "a.jar"])).
    intros dir H.
    do 4 (destruct dir as [|? dir];
          [discriminate H | cbn in H; injection H as _ H]).
    destruct dir; discriminate H.
Defined.

End ChecksumMore.

(** ** The link listener: attributes, roles, addresses, ports *)

Module LinkMore.
Import LinkDiscovery LinkSpec LinkAux LinkFacts.

(** *** Dictionaries built by a loop of assignments *)

Lemma fold_left_pointwise {A B : Type} (g g' : A -> B -> A) (l : list B) (a : A) :
  (forall a x, g a x = g' a x) -> fold_left g l a = fold_left g' l a.
Proof.
  intros Heq. revert a. induction l as [|x l IH]; intros a; [reflexivity|].
  cbn [fold_left]. rewrite Heq. apply IH.
Qed.

(** After [for key in keys: if f(key) is there: attrs[key] = f(key)], a
    key that was visited holds what [f] gives for it. *)
Lemma fold_insert_lookup {V : Type} (f : string -> option V) (keys : list string)
    (attrs : gmap string V) (k : string) :
  fold_left (fun attrs key =>
               match f key with
               | Some v => <[key := v]> attrs
               | None => attrs
               end) keys attrs !! k =
    if decide (k ∈ keys) then
      match f k with
      | Some v => Some v
      | None => attrs !! k
      end
    else attrs !! k.
Proof.
  revert attrs. induction keys as [|key keys IH]; intros attrs; cbn [fold_left].
  - destruct (decide (k ∈ [])) as [Hin|_]; [|reflexivity].
    apply elem_of_nil in Hin. contradiction.
  - rewrite IH. destruct (decide (k ∈ keys)) as [Hin|Hnin].
    + rewrite decide_True by (right; assumption).
      destruct (f k) eqn:Hk; [reflexivity|].
      destruct (decide (key = k)) as [->|Hne]; [rewrite Hk; reflexivity|].
      destruct (f key); [apply lookup_insert_ne; assumption | reflexivity].
    + destruct (decide (key = k)) as [->|Hne].
      * rewrite decide_True by left.
        destruct (f k); [apply lookup_insert_eq | reflexivity].
      * rewrite decide_False by (rewrite not_elem_of_cons; split; congruence).
        destruct (f key); [apply lookup_insert_ne; assumption | reflexivity].
Qed.

Section More.
Context `{Ext : Externals}.

(** *** The attributes of a port, of the switch, of a request *)

(** X10: the attributes of a port are its fields, one for one, with an address
    replaced by its text; a field the port does not have is not there. *)
Theorem port_attrs_lookup (thisport : dict Value) (key : string) :
  port_attrs thisport !! key = port_attr_value <$> Dict.get thisport key.
Proof.
  unfold port_attrs.
  rewrite (fold_left_pointwise _
             (fun attrs k =>
                match port_attr_value <$> Dict.get thisport k with
                | Some v => <[k := v]> attrs
                | None => attrs
                end)).
  - rewrite (fold_insert_lookup (fun k => port_attr_value <$> Dict.get thisport k)),
      lookup_empty.
    destruct (decide (key ∈ Dict.keys thisport)) as [Hin|Hnin].
    + destruct (Dict.get thisport key); reflexivity.
    + apply dict_get_None_keys in Hnin. rewrite Hnin. reflexivity.
  - intros attrs k. destruct (Dict.get thisport k) as [[]|]; reflexivity.
Qed.

Lemma switch_attrs_fold_lookup (d : dict Value) (key : string) :
  fold_left
    (fun (attrs : gmap string Value) key =>
       if String.eqb key "ports" || String.eqb key "SystemCapabilities"
       then attrs
       else match Dict.get d key with
            | Some value =>
                <[key := if is_number value then value
                         else VStr (py_str value)]> attrs
            | None => attrs
            end)
    (Dict.keys d) (∅ : gmap string Value) !! key =
    if String.eqb key "ports" || String.eqb key "SystemCapabilities" then None
    else attr_value <$> Dict.get d key.
Proof.
  rewrite (fold_left_pointwise _
             (fun attrs k =>
                match (if String.eqb k "ports" || String.eqb k "SystemCapabilities"
                       then None else attr_value <$> Dict.get d k) with
                | Some v => <[k := v]> attrs
                | None => attrs
                end)).
  - rewrite (fold_insert_lookup
               (fun k => if String.eqb k "ports" || String.eqb k "SystemCapabilities"
                         then None else attr_value <$> Dict.get d k)),
      lookup_empty.
    destruct (decide (key ∈ Dict.keys d)) as [Hin|Hnin].
    + destruct (String.eqb key "ports" || String.eqb key "SystemCapabilities");
        [reflexivity|].
      destruct (Dict.get d key); reflexivity.
    + apply dict_get_None_keys in Hnin. rewrite Hnin.
      destruct (String.eqb key "ports" || String.eqb key "SystemCapabilities");
        reflexivity.
  - intros attrs k.
    destruct (String.eqb k "ports" || String.eqb k "SystemCapabilities");
      [reflexivity|].
    destruct (Dict.get d k); reflexivity.
Qed.


(** X12: the parameter set of a device, when the three names are different:
    the instance is [#SWITCH_] and the device name, the device is the
    device name, the protocols are [lldp] and [cdp], and every other
    parameter is the one of the configuration. *)
Theorem switch_params_lookup (init_params : gmap string Value) (devname : string) :
  CONFIGNAME_INSTANCE <> CONFIGNAME_DEVNAME ->
  CONFIGNAME_INSTANCE <> CONFIGNAME_SWPROTOS ->
  CONFIGNAME_DEVNAME <> CONFIGNAME_SWPROTOS ->
  let params := switch_params init_params devname in
  params !! CONFIGNAME_INSTANCE = Some (VStr (String.append "#SWITCH_" devname)) /\
  params !! CONFIGNAME_DEVNAME = Some (VStr devname) /\
  params !! CONFIGNAME_SWPROTOS = Some (VList [VStr "lldp"; VStr "cdp"]) /\
  forall key,
    key <> CONFIGNAME_INSTANCE -> key <> CONFIGNAME_DEVNAME ->
    key <> CONFIGNAME_SWPROTOS ->
    params !! key = init_params !! key.
Proof.
  intros Hid His Hds. cbv zeta. unfold switch_params. split; [|split; [|split]].
  - rewrite !lookup_insert_ne by congruence. apply lookup_insert_eq.
  - rewrite lookup_insert_ne by congruence. apply lookup_insert_eq.
  - apply lookup_insert_eq.
  - intros key Hi Hd Hs. rewrite !lookup_insert_ne by congruence. reflexivity.
Qed.

(** *** Roles *)

Lemma world_eta (w : World) : {| store := store w; trace := trace w |} = w.
Proof. destruct w; reflexivity. Qed.

Lemma assign_roles_loop (switch : Node) (caps : dict Value) (roles : list string)
    (w : World) :
  (forall role, role ∈ roles -> role ∈ Dict.keys caps) ->
  let counted :=
    List.filter (fun role => match Dict.get caps role with
                             | Some flag => truthy flag
                             | None => false
                             end) roles in
  for_each roles
    (fun role =>
       match Dict.get caps role with
       | Some flag => if truthy flag then do_addrole switch role else ret tt
       | None => raise (KeyError role)
       end) w =
    (Returns tt,
     {| store := fold_left (fun s role => addrole s switch role) counted (store w);
        trace := trace w ++ map (EAddRole switch) counted |}).
Proof.
  cbv zeta. revert w. induction roles as [|role roles IH]; intros w Hkeys.
  - cbn. rewrite app_nil_r, world_eta. reflexivity.
  - destruct (dict_keys_get caps role) as [flag Hflag]; [apply Hkeys; left|].
    cbn [for_each List.filter]. unfold bind at 1. rewrite Hflag.
    destruct (truthy flag).
    + unfold do_addrole at 1.
      rewrite IH by (intros; apply Hkeys; right; assumption).
      cbn [store trace fold_left map]. rewrite <- app_assoc. reflexivity.
    + unfold ret at 1. apply IH. intros; apply Hkeys; right; assumption.
Qed.

(** X13: the roles of the switch: without [SystemCapabilities] the one role
    [bridge]; with a dictionary of capabilities one [addrole] for every
    capability whose flag is true, in the order of the dictionary, and no
    [bridge] by default; with [SystemCapabilities] that is not a dictionary
    an [AttributeError], nothing added. *)
Theorem assign_roles_cases (switch : Node) (d : dict Value) (w : World) :
  (Dict.get d "SystemCapabilities" = None ->
   assign_roles switch d w =
     (Returns tt,
      {| store := addrole (store w) switch ROLE_bridge;
         trace := trace w ++ [EAddRole switch ROLE_bridge] |})) /\
  (forall caps,
     Dict.get d "SystemCapabilities" = Some (VDict caps) ->
     assign_roles switch d w =
       (Returns tt,
        {| store := fold_left (fun s role => addrole s switch role)
                      (roles_of caps) (store w);
           trace := trace w ++ map (EAddRole switch) (roles_of caps) |})) /\
  (forall v,
     Dict.get d "SystemCapabilities" = Some v -> ~ is_dict v ->
     assign_roles switch d w = (Raises AttributeError, w)).
Proof.
  unfold assign_roles. split; [|split].
  - intros ->. reflexivity.
  - intros caps ->. unfold bind, lift, as_dict.
    apply assign_roles_loop. auto.
  - intros v -> Hv. destruct v; try reflexivity. exfalso. apply Hv. exact I.
Qed.

(** *** The management address *)

(** X14: a management address that is an IP address, with a chassis id that is
    not a MAC address: nothing is created or related. The attributes are
    logged, and two warnings when the two addresses differ. *)
Theorem mgmt_addr_ip_chassis_not_mac (switch : Node) (chassisid mgmtaddr : Value)
    (attrs : gmap string Value) (w : World) :
  attrs !! "ManagementAddress" = Some mgmtaddr ->
  addrtype (pyNetAddr mgmtaddr) = ADDR_FAMILY_IPV4 \/
  addrtype (pyNetAddr mgmtaddr) = ADDR_FAMILY_IPV6 ->
  addrtype (pyNetAddr chassisid) <> ADDR_FAMILY_802 ->
  _process_mgmt_addr switch chassisid attrs w =
    (Returns tt,
     {| store := store w;
        trace := trace w ++
          ELog Info (LLDPAttrs attrs) ::
          (if netaddr_eqb (pyNetAddr mgmtaddr) (pyNetAddr chassisid) then []
           else [ELog Warning (ChassisIdNotMac chassisid mgmtaddr);
                 ELog Warning
                   (ChassisIdNotMgmtAddr (netaddr_str (pyNetAddr mgmtaddr))
                      (netaddr_str (pyNetAddr chassisid)))]) |}).
Proof.
  intros Hattr Hip Hmac. unfold _process_mgmt_addr. rewrite Hattr.
  assert (Hfam : Z.eqb (addrtype (pyNetAddr mgmtaddr)) ADDR_FAMILY_IPV4
                 || Z.eqb (addrtype (pyNetAddr mgmtaddr)) ADDR_FAMILY_IPV6 = true).
  { destruct Hip as [-> | ->]; rewrite Z.eqb_refl; [reflexivity|].
    apply orb_true_r. }
  rewrite Hfam. apply Z.eqb_neq in Hmac. rewrite Hmac.
  unfold bind, emit. cbn [store trace].
  destruct (netaddr_eqb _ _); cbn [negb store trace ret].
  - reflexivity.
  - rewrite <- !app_assoc. reflexivity.
Qed.

(** X15: a management address that is neither an IP address nor a MAC address
    is passed over in silence: the world is as it was. *)
Theorem mgmt_addr_other_family (switch : Node) (chassisid mgmtaddr : Value)
    (attrs : gmap string Value) (w : World) :
  attrs !! "ManagementAddress" = Some mgmtaddr ->
  addrtype (pyNetAddr mgmtaddr) <> ADDR_FAMILY_IPV4 ->
  addrtype (pyNetAddr mgmtaddr) <> ADDR_FAMILY_IPV6 ->
  addrtype (pyNetAddr mgmtaddr) <> ADDR_FAMILY_802 ->
  _process_mgmt_addr switch chassisid attrs w = (Returns tt, w).
Proof.
  intros Hattr H4 H6 H802. unfold _process_mgmt_addr. rewrite Hattr.
  apply Z.eqb_neq in H4, H6, H802. rewrite H4, H6, H802. reflexivity.
Qed.

(** X16: what is created for a management address. An IP address with a MAC
    chassis id: a NIC [(adminNIC)] with the chassis id as its MAC, an IP
    node for the address, the NIC owned by the switch and the address
    owned by the NIC, not by the switch. A MAC management address: a NIC
    [(ManagementAddress)] with that MAC, owned by the switch; no IP node.
    In both cases the nodes are in the domain of the switch. *)
Theorem mgmt_addr_creates (switch : Node) (chassisid mgmtaddr : Value)
    (attrs : gmap string Value) (w : World) :
  attrs !! "ManagementAddress" = Some mgmtaddr ->
  ((addrtype (pyNetAddr mgmtaddr) = ADDR_FAMILY_IPV4 \/
    addrtype (pyNetAddr mgmtaddr) = ADDR_FAMILY_IPV6) ->
   addrtype (pyNetAddr chassisid) = ADDR_FAMILY_802 ->
   let nic_args : gmap string Value :=
     <["domain" := node_domain switch]>
       (<["macaddr" := chassisid]>
          (<["scope" := VStr "global"]> {["ifname" := VStr "(adminNIC)"]})) in
   let ip_args : gmap string Value :=
     <["domain" := node_domain switch]>
       (<["cidrmask" := VStr "unknown"]>
          (<["ipaddr" := mgmtaddr]> {["subnet" := VNone]})) in
   let nic := load_or_create (store w) NICNode nic_args in
   let ip := load_or_create (fst nic) IPaddrNode ip_args in
   _process_mgmt_addr switch chassisid attrs w =
     (Returns tt,
      {| store := relate_new
                    (relate_new (fst ip) switch REL_nicowner (snd nic))
                    (snd nic) REL_ipowner (snd ip);
         trace := trace w ++
                  [ELoadOrCreate NICNode nic_args;
                   ELoadOrCreate IPaddrNode ip_args;
                   ERelateNew switch REL_nicowner (snd nic);
                   ERelateNew (snd nic) REL_ipowner (snd ip)] |})) /\
  (addrtype (pyNetAddr mgmtaddr) <> ADDR_FAMILY_IPV4 ->
   addrtype (pyNetAddr mgmtaddr) <> ADDR_FAMILY_IPV6 ->
   addrtype (pyNetAddr mgmtaddr) = ADDR_FAMILY_802 ->
   let nic_args : gmap string Value :=
     <["domain" := node_domain switch]>
       (<["macaddr" := mgmtaddr]>
          (<["scope" := VStr "global"]>
             {["ifname" := VStr "(ManagementAddress)"]})) in
   let nic := load_or_create (store w) NICNode nic_args in
   _process_mgmt_addr switch chassisid attrs w =
     (Returns tt,
      {| store := relate_new (fst nic) switch REL_nicowner (snd nic);
         trace := trace w ++
                  [ELoadOrCreate NICNode nic_args;
                   ERelateNew switch REL_nicowner (snd nic)] |})).
Proof.
  intros Hattr. unfold _process_mgmt_addr. rewrite Hattr. split.
  - intros Hip Hmac. cbv zeta.
    assert (Hfam : Z.eqb (addrtype (pyNetAddr mgmtaddr)) ADDR_FAMILY_IPV4
                   || Z.eqb (addrtype (pyNetAddr mgmtaddr)) ADDR_FAMILY_IPV6
                   = true).
    { destruct Hip as [-> | ->]; rewrite Z.eqb_refl; [reflexivity|].
      apply orb_true_r. }
    rewrite Hfam, Hmac, Z.eqb_refl.
    unfold bind, do_load_or_create, do_relate_new. cbn [store trace].
    destruct (load_or_create (store w) NICNode _) as [s1 nic].
    cbn [store trace fst snd].
    destruct (load_or_create s1 IPaddrNode _) as [s2 ip].
    cbn [store trace fst snd]. rewrite <- !app_assoc. reflexivity.
  - intros H4 H6 H802. cbv zeta.
    apply Z.eqb_neq in H4, H6. rewrite H4, H6, H802, Z.eqb_refl.
    unfold bind, do_load_or_create, do_relate_new. cbn [orb store trace].
    destruct (load_or_create (store w) NICNode _) as [s1 nic].
    cbn [store trace fst snd]. rewrite <- !app_assoc. reflexivity.
Qed.

(** *** Wiring a port to the drone *)

(** X17: the port is wired to the first NIC of the drone that has the interface
    name the port gives, and to no other; when no NIC has that name nothing
    is related and nothing is logged. *)
Theorem wire_loop_first_match (nicnode : Node) (matchif : Value)
    (niclist : list Node) (w : World) :
  wire_loop nicnode matchif niclist w =
    match matching_nic matchif niclist with
    | Some dronenic =>
        (Returns tt,
         {| store := relate_new (store w) nicnode REL_wiredto dronenic;
            trace := trace w ++ [ERelateNew nicnode REL_wiredto dronenic] |})
    | None => (Returns tt, w)
    end.
Proof.
  unfold matching_nic. induction niclist as [|dronenic niclist IH].
  - reflexivity.
  - cbn [wire_loop List.find].
    destruct (eq_str matchif (node_ifname dronenic)); [reflexivity | exact IH].
Qed.

(** *** Ports *)

Lemma wire_loop_returns (nicnode : Node) (matchif : Value) (niclist : list Node)
    (w : World) :
  fst (wire_loop nicnode matchif niclist w) = Returns tt /\
  List.filter is_load_or_create (trace (snd (wire_loop nicnode matchif niclist w))) =
    List.filter is_load_or_create (trace w).
Proof.
  induction niclist as [|dronenic niclist IH]; [split; reflexivity|].
  cbn [wire_loop]. destruct (eq_str matchif (node_ifname dronenic)); [|exact IH].
  split; [reflexivity|]. cbn [do_relate_new snd trace].
  rewrite List.filter_app. cbn. apply app_nil_r.
Qed.

(** A port found under its name, up to the [try]. *)
Lemma process_port_start drone switch chassisid ports portname thisport w :
  Dict.get ports portname = Some (VDict thisport) ->
  (exists portid, Dict.get thisport "PortId" = Some portid) ->
  existsb (fun k => Dict.mem k thisport) nic_keywords = false ->
  process_port drone switch chassisid ports portname w =
    let created :=
      load_or_create (store w) NICNode (nic_attrs drone chassisid thisport) in
    try_except_KeyError (wire_port drone (snd created) thisport)
      (emit (ELog Error OopsException))
      {| store := relate (fst created) switch REL_nicowner (snd created)
                    {["causes" := VBool true]};
         trace := trace w ++
                  [ELoadOrCreate NICNode (nic_attrs drone chassisid thisport);
                   ERelate switch REL_nicowner (snd created)
                     {["causes" := VBool true]}] |}.
Proof.
  intros Hget [portid Hportid] Hkw. cbv zeta.
  unfold process_port, bind, lift, getitem, as_dict.
  rewrite Hget, Hportid, Hkw.
  unfold do_load_or_create, do_relate, nic_attrs. rewrite Hportid.
  destruct (load_or_create _ _ _) as [s nicnode]. cbn [fst snd store trace].
  rewrite <- app_assoc. reflexivity.
Qed.

Lemma process_port_accepted drone switch chassisid ports portname thisport w :
  Dict.get ports portname = Some (VDict thisport) ->
  port_accepted drone thisport ->
  fst (process_port drone switch chassisid ports portname w) = Returns tt /\
  List.filter is_load_or_create
    (trace (snd (process_port drone switch chassisid ports portname w))) =
    List.filter is_load_or_create (trace w) ++
      [ELoadOrCreate NICNode (nic_attrs drone chassisid thisport)].
Proof.
  intros Hget (Hportid & Hkw & Hhost).
  rewrite (process_port_start _ _ _ _ _ _ _ Hget Hportid Hkw). cbv zeta.
  set (created := load_or_create (store w) NICNode
                    (nic_attrs drone chassisid thisport)).
  unfold try_except_KeyError, wire_port, bind, lift, getitem.
  destruct Hhost as [Hnone|(host & Hsome & Heq)].
  - rewrite Hnone. cbn [emit fst snd store trace]. split; [reflexivity|].
    rewrite !List.filter_app. cbn. rewrite app_nil_r. reflexivity.
  - rewrite Hsome, Heq.
    destruct (Dict.get thisport "ConnectsToInterface") as [matchif|].
    + unfold do_load_related. cbn [store trace].
      match goal with
      | |- context [wire_loop ?n ?m ?l ?w0] =>
          destruct (wire_loop_returns n m l w0) as [Hret Htrace];
          destruct (wire_loop n m l w0) as [outcome w1]
      end.
      cbn [fst snd] in Hret, Htrace. subst outcome. cbn [fst snd].
      split; [reflexivity|]. rewrite Htrace. cbn [trace].
      rewrite !List.filter_app. cbn. rewrite app_nil_r. reflexivity.
    + cbn [emit fst snd store trace]. split; [reflexivity|].
      rewrite !List.filter_app. cbn. rewrite app_nil_r. reflexivity.
Qed.

Lemma process_ports_loop drone switch chassisid ports portnames w :
  (forall portname, portname ∈ portnames ->
     exists thisport, Dict.get ports portname = Some (VDict thisport) /\
                      port_accepted drone thisport) ->
  let result :=
    for_each portnames (process_port drone switch chassisid ports) w in
  fst result = Returns tt /\
  List.filter is_load_or_create (trace (snd result)) =
    List.filter is_load_or_create (trace w) ++
      map (fun portname =>
             ELoadOrCreate NICNode
               (nic_attrs drone chassisid (port_of ports portname)))
        portnames.
Proof.
  cbv zeta. revert w. induction portnames as [|portname portnames IH];
    intros w Hall.
  - split; [reflexivity|]. cbn. rewrite app_nil_r. reflexivity.
  - destruct (Hall portname) as (thisport & Hget & Hok); [left|].
    destruct (process_port_accepted drone switch chassisid ports portname
                thisport w Hget Hok) as [Hret Htrace].
    cbn [for_each map]. unfold bind at 1. unfold bind at 1.
    destruct (process_port drone switch chassisid ports portname w)
      as [outcome w1].
    cbn [fst snd] in Hret, Htrace. subst outcome.
    destruct (IH w1) as [IHret IHtrace];
      [intros; apply Hall; right; assumption|].
    split; [exact IHret|]. rewrite IHtrace, Htrace, <- app_assoc.
    unfold port_of at 2. rewrite Hget. reflexivity.
Qed.

(** X18: a packet whose ports can all be taken: [_process_ports] returns, and
    it creates one NIC for every port of the packet, in the order of the
    ports, each with the attributes of its own port; a port without its
    cross-reference takes nothing away from the ports after it. *)
Theorem process_ports_one_nic_each drone switch chassisid (ports : dict Value) w :
  (forall portname, portname ∈ Dict.keys ports ->
     exists thisport, Dict.get ports portname = Some (VDict thisport) /\
                      port_accepted drone thisport) ->
  let result := _process_ports drone switch chassisid (VDict ports) w in
  fst result = Returns tt /\
  List.filter is_load_or_create (trace (snd result)) =
    List.filter is_load_or_create (trace w) ++
      map (fun portname =>
             ELoadOrCreate NICNode
               (nic_attrs drone chassisid (port_of ports portname)))
        (Dict.keys ports).
Proof.
  intros Hall. cbv zeta. unfold _process_ports, bind at 1, lift, as_dict.
  apply process_ports_loop, Hall.
Qed.

(** X19: a port without [PortId]: the [KeyError] is raised before the [try],
    so it is not caught; [_process_ports] ends with it, nothing was
    created for the port and no error was logged. *)
Theorem process_ports_without_portid drone switch chassisid portname thisport
    rest w :
  Dict.get thisport "PortId" = None ->
  _process_ports drone switch chassisid
    (VDict ((portname, VDict thisport) :: rest)) w =
    (Raises (KeyError "PortId"), w).
Proof.
  intros Hnone. unfold _process_ports, bind at 1, lift, as_dict.
  cbn [Dict.keys map fst for_each]. unfold bind at 1.
  unfold process_port, bind, lift, getitem, as_dict.
  rewrite dict_get_cons, String.eqb_refl, Hnone. reflexivity.
Qed.

(** X20: a port with a field named like a keyword argument of the call
    ([domain], [macaddr], [scope], [json] or [ifname]): the call of
    [load_or_create] is a [TypeError]; nothing was created. *)
Theorem process_ports_keyword_field drone switch chassisid portname thisport
    rest w :
  (exists portid, Dict.get thisport "PortId" = Some portid) ->
  (exists keyword, keyword ∈ nic_keywords /\ Dict.mem keyword thisport = true) ->
  _process_ports drone switch chassisid
    (VDict ((portname, VDict thisport) :: rest)) w =
    (Raises TypeError, w).
Proof.
  intros [portid Hportid] (keyword & Hkw & Hmem).
  assert (Hex : existsb (fun k => Dict.mem k thisport) nic_keywords = true).
  { apply existsb_exists. exists keyword. split; [|exact Hmem].
    apply list_elem_of_In, Hkw. }
  unfold _process_ports, bind at 1, lift, as_dict.
  cbn [Dict.keys map fst for_each]. unfold bind at 1.
  unfold process_port, bind, lift, getitem, as_dict.
  rewrite dict_get_cons, String.eqb_refl, Hportid, Hex. reflexivity.
Qed.

(** *** The packet as a whole *)

(** X21: a packet with [ChassisId] and without [ports]: the switch is created
    and given its role before [data['ports']] is read, so the call ends in
    a [KeyError] with the switch already in the store. *)
Theorem linkdiscovery_without_ports self drone jsonobj chassisid w :
  Dict.get (data jsonobj) "ChassisId" = Some chassisid ->
  Dict.get (data jsonobj) "SystemCapabilities" = None ->
  Dict.get (data jsonobj) "ManagementAddress" = None ->
  Dict.get (data jsonobj) "ports" = None ->
  let attrs := switch_attrs drone (data jsonobj) chassisid in
  let created := load_or_create (store w) SystemNode attrs in
  processpkt_linkdiscovery self drone jsonobj w =
    (Raises (KeyError "ports"),
     {| store := addrole (fst created) (snd created) ROLE_bridge;
        trace := trace w ++ [ELoadOrCreate SystemNode attrs;
                             EAddRole (snd created) ROLE_bridge] |}).
Proof.
  intros Hchassis Hcaps Hmgmt Hports. cbv zeta.
  assert (Hattr : switch_attrs drone (data jsonobj) chassisid
                    !! "ManagementAddress" = None).
  { unfold switch_attrs. rewrite !lookup_insert_ne by discriminate.
    rewrite switch_attrs_fold_lookup, Hmgmt. reflexivity. }
  unfold processpkt_linkdiscovery. rewrite Hchassis.
  unfold bind at 1. unfold do_load_or_create.
  destruct (load_or_create _ _ _) as [s switch] eqn:Hcreated.
  cbn [fst snd]. unfold bind at 1. unfold assign_roles. rewrite Hcaps.
  unfold do_addrole. cbn [store trace]. unfold bind at 1. rewrite Hattr.
  unfold ret at 1. unfold bind, lift, getitem. rewrite Hports.
  rewrite <- app_assoc. reflexivity.
Qed.

(** X22: only a [__LinkDiscovery] packet reaches the graph: for a packet of any
    other type, [netconfig] and unknown types alike, [processpkt] leaves
    the store as it was and adds no [load_or_create], [relate],
    [relate_new] or [addrole]; and when it raises, it has done nothing. *)
Theorem only_linkdiscovery_reaches_graph self drone jsonobj discoverychanged w :
  discovertype jsonobj <> "__LinkDiscovery" ->
  let result := processpkt self drone jsonobj discoverychanged w in
  store (snd result) = store w /\
  List.filter is_graph_mutation (trace (snd result)) =
    List.filter is_graph_mutation (trace w) /\
  (forall e, fst result = Raises e -> snd result = w).
Proof.
  intros Htype. cbv zeta. unfold processpkt.
  destruct discoverychanged; cbn [negb];
    [|split; [reflexivity|]; split; [reflexivity|]; intros e H; discriminate H].
  apply String.eqb_neq in Htype. rewrite Htype.
  destruct (String.eqb (discovertype jsonobj) "netconfig").
  - unfold processpkt_netconfig, bind, lift.
    destruct (netconfig_loop _ _ _ _) as [[|params args]|e].
    + split; [reflexivity|]. split; [reflexivity|]. intros e H; discriminate H.
    + cbn [emit snd fst store trace]. split; [reflexivity|].
      split; [|intros e H; discriminate H].
      rewrite List.filter_app. cbn. apply app_nil_r.
    + split; [reflexivity|]. split; reflexivity.
  - cbn [emit snd fst store trace]. split; [reflexivity|].
    split; [|intros e H; discriminate H].
    rewrite List.filter_app. cbn. apply app_nil_r.
Qed.

(** *** A device entry that is no dictionary *)

Lemma link_test_raises_TypeError (devinfo : Value) (e : Exc) :
  discovery_indicates_link_is_up devinfo = Raises e -> e = TypeError.
Proof.
  destruct devinfo; cbn [discovery_indicates_link_is_up contains];
    try (intros [= <-]; reflexivity); try discriminate.
  - destruct (PyStr.contains s "operstate"); [|discriminate].
    destruct (PyStr.contains s "carrier"); [|discriminate].
    destruct (PyStr.contains s "address"); [|discriminate].
    intros [= <-]. reflexivity.
  - destruct (existsb _ l); [|discriminate].
    destruct (existsb _ l); [|discriminate].
    destruct (existsb _ l); [|discriminate].
    intros [= <-]. reflexivity.
Qed.

Lemma netconfig_loop_bad_entry init_params (d : dict Value) name v devnames args :
  Dict.get d name = Some v -> not_iterable v ->
  (forall devname, devname ∈ devnames -> devname ∈ Dict.keys d) ->
  name ∈ devnames ->
  netconfig_loop init_params d devnames args = Raises TypeError.
Proof.
  intros Hget Hbad. revert args.
  induction devnames as [|devname devnames IH]; intros args Hkeys Hin.
  - apply elem_of_nil in Hin. contradiction.
  - cbn [netconfig_loop].
    destruct (dict_keys_get d devname) as [devinfo Hdev]; [apply Hkeys; left|].
    rewrite Hdev.
    destruct (discovery_indicates_link_is_up devinfo) as [up|e] eqn:Htest.
    + assert (Hrest : name ∈ devnames).
      { apply elem_of_cons in Hin as [->|Hin]; [|exact Hin].
        rewrite Hget in Hdev. injection Hdev as <-.
        destruct v; try contradiction; discriminate Htest. }
      destruct up; apply IH; try exact Hrest;
        intros; apply Hkeys; right; assumption.
    + apply link_test_raises_TypeError in Htest. subst e. reflexivity.
Qed.

(** X23: one device entry that is [None], a number or an address spoils the
    packet: [processpkt_netconfig] ends in a [TypeError] and issues no
    request, not even for the devices that are up. *)
Theorem netconfig_bad_entry_loses_batch self drone jsonobj name v w :
  Dict.get (data jsonobj) name = Some v ->
  not_iterable v ->
  processpkt_netconfig self drone jsonobj w = (Raises TypeError, w).
Proof.
  intros Hget Hbad. unfold processpkt_netconfig, bind, lift.
  rewrite (netconfig_loop_bad_entry _ _ name v) by
    (try assumption; try (intros; assumption);
     eapply dict_get_Some_keys, Hget).
  reflexivity.
Qed.
End More.

Lemma switch_params_lookup_witness :
  @switch_params ExampleExternals ∅ "eth0" !! "instance" =
    Some (VStr "#SWITCH_eth0").
Proof.
  apply (@switch_params_lookup ExampleExternals ∅ "eth0"); discriminate.
Defined.



Lemma assign_roles_cases_witness :
  @trace ExampleExternals
    (snd (@assign_roles ExampleExternals "sw1"
            [("SystemCapabilities", VDict example_caps)] example_world)) =
    [@EAddRole ExampleExternals "sw1" "bridge";
     @EAddRole ExampleExternals "sw1" "wlan"].
Proof.
  destruct (@assign_roles_cases ExampleExternals "sw1"
              [("SystemCapabilities", VDict example_caps)] example_world)
    as (_ & Hcaps & _).
  rewrite (Hcaps example_caps eq_refl). reflexivity.
Defined.

Lemma mgmt_addr_ip_chassis_not_mac_witness :
  @_process_mgmt_addr ExampleExternals "sw1" (VStr "10.0.0.2")
    {["ManagementAddress" := VStr "10.0.0.1"]} example_world =
    (Returns tt,
     @Build_World ExampleExternals (@store ExampleExternals example_world)
       [@ELog ExampleExternals Info
          (LLDPAttrs {["ManagementAddress" := VStr "10.0.0.1"]});
        @ELog ExampleExternals Warning
          (ChassisIdNotMac (VStr "10.0.0.2") (VStr "10.0.0.1"));
        @ELog ExampleExternals Warning
          (ChassisIdNotMgmtAddr "10.0.0.1" "10.0.0.2")]).
Proof.
  rewrite (@mgmt_addr_ip_chassis_not_mac ExampleExternals "sw1"
             (VStr "10.0.0.2") (VStr "10.0.0.1")
             {["ManagementAddress" := VStr "10.0.0.1"]} example_world).
  - reflexivity.
  - reflexivity.
  - left. reflexivity.
  - discriminate.
Defined.

Lemma mgmt_addr_other_family_witness :
  @_process_mgmt_addr ExampleExternals "sw1" (VStr "00-11-22-33-44-55")
    {["ManagementAddress" := VStr "sw1"]} example_world =
    (Returns tt, example_world).
Proof.
  apply (@mgmt_addr_other_family ExampleExternals "sw1"
           (VStr "00-11-22-33-44-55") (VStr "sw1")
           {["ManagementAddress" := VStr "sw1"]} example_world);
    [reflexivity | discriminate | discriminate | discriminate].
Defined.

Lemma mgmt_addr_creates_witness :
  @store ExampleExternals
    (snd (@_process_mgmt_addr ExampleExternals "sw1" (VStr "00-11-22-33-44-55")
            {["ManagementAddress" := VStr "10.0.0.1"]} example_world)) =
    [("host1", "nicowner", "eth0"); ("sw1", "nicowner", "(adminNIC)");
     ("(adminNIC)", "ipowner", "10.0.0.1")].
Proof.
  destruct (@mgmt_addr_creates ExampleExternals "sw1"
              (VStr "00-11-22-33-44-55") (VStr "10.0.0.1")
              {["ManagementAddress" := VStr "10.0.0.1"]} example_world)
    as [Hip _]; [reflexivity|].
  rewrite Hip; [reflexivity | left; reflexivity | reflexivity].
Defined.

Lemma process_ports_one_nic_each_witness :
  List.filter (@is_load_or_create ExampleExternals)
    (@trace ExampleExternals
       (snd (@_process_ports ExampleExternals example_drone "sw1"
               (VStr "00-11-22-33-44-55")
               (VDict [("p3", VDict port_no_host); ("p2", VDict port_this_host)])
               example_world))) =
    [@ELoadOrCreate ExampleExternals NICNode
       (@nic_attrs ExampleExternals example_drone (VStr "00-11-22-33-44-55")
          port_no_host);
     @ELoadOrCreate ExampleExternals NICNode
       (@nic_attrs ExampleExternals example_drone (VStr "00-11-22-33-44-55")
          port_this_host)].
Proof.
  destruct (@process_ports_one_nic_each ExampleExternals example_drone "sw1"
              (VStr "00-11-22-33-44-55")
              [("p3", VDict port_no_host); ("p2", VDict port_this_host)]
              example_world) as [_ Htrace].
  - intros portname Hin. apply list_elem_of_In in Hin. simpl in Hin.
    destruct Hin as [<-|[<-|[]]].
    + exists port_no_host. split; [reflexivity|].
      split; [eexists; reflexivity|]. split; [reflexivity|]. left. reflexivity.
    + exists port_this_host. split; [reflexivity|].
      split; [eexists; reflexivity|]. split; [reflexivity|]. right.
      eexists. split; reflexivity.
  - rewrite Htrace. reflexivity.
Defined.

Lemma process_ports_without_portid_witness :
  @_process_ports ExampleExternals example_drone "sw1" (VStr "00-11-22-33-44-55")
    (VDict [("p5", VDict [("ConnectsToHost", VStr "host1")]);
            ("p2", VDict port_this_host)]) example_world =
    (Raises (KeyError "PortId"), example_world).
Proof.
  apply (@process_ports_without_portid ExampleExternals example_drone "sw1"
           (VStr "00-11-22-33-44-55") "p5" [("ConnectsToHost", VStr "host1")]
           [("p2", VDict port_this_host)] example_world).
  reflexivity.
Defined.

Lemma process_ports_keyword_field_witness :
  @_process_ports ExampleExternals example_drone "sw1" (VStr "00-11-22-33-44-55")
    (VDict [("p4", VDict port_with_domain); ("p2", VDict port_this_host)])
    example_world =
    (Raises TypeError, example_world).
Proof.
  apply (@process_ports_keyword_field ExampleExternals example_drone "sw1"
           (VStr "00-11-22-33-44-55") "p4" port_with_domain
           [("p2", VDict port_this_host)] example_world).
  - eexists. reflexivity.
  - exists "domain". split; [left | reflexivity].
Defined.

Lemma linkdiscovery_without_ports_witness :
  fst (@processpkt_linkdiscovery ExampleExternals example_listener example_drone
         example_switch_only example_world) = Raises (KeyError "ports") /\
  List.filter (@is_graph_mutation ExampleExternals)
    (@trace ExampleExternals
       (snd (@processpkt_linkdiscovery ExampleExternals example_listener
               example_drone example_switch_only example_world))) =
    [@ELoadOrCreate ExampleExternals SystemNode
       (@switch_attrs ExampleExternals example_drone (data example_switch_only)
          (VStr "00-11-22-33-44-55"));
     @EAddRole ExampleExternals "00-11-22-33-44-55" "bridge"].
Proof.
  rewrite (@linkdiscovery_without_ports ExampleExternals example_listener
             example_drone example_switch_only (VStr "00-11-22-33-44-55")
             example_world eq_refl eq_refl eq_refl eq_refl).
  split; reflexivity.
Defined.

Lemma only_linkdiscovery_reaches_graph_witness :
  @store ExampleExternals
    (snd (@processpkt ExampleExternals example_listener example_drone
            example_netconfig true example_world)) =
    @store ExampleExternals example_world.
Proof.
  apply (@only_linkdiscovery_reaches_graph ExampleExternals example_listener
           example_drone example_netconfig true example_world).
  discriminate.
Defined.

Lemma netconfig_bad_entry_loses_batch_witness :
  @processpkt_netconfig ExampleExternals example_listener example_drone
    example_netconfig_broken example_world =
    (Raises TypeError, example_world).
Proof.
  apply (@netconfig_bad_entry_loses_batch ExampleExternals example_listener
           example_drone example_netconfig_broken "eth9" VNone example_world).
  - reflexivity.
  - exact I.
Defined.

End LinkMore.
